(** * CryptoAnalyzer: indicator and pattern engine of [crypto_analyzer.py]

    A shallow embedding of the [CryptoAnalyzer] class.  The object's
    [self.data] table is a record holding the fetched bars together with a
    finite map from column names to the columns the methods add in place.
    Methods run in a small state-and-error monad over the analyzer object,
    so that a read of a missing column, an assignment and an exception in
    the middle of a method are what they are in the class.

    Numbers.  Prices are finite reals (exact rationals [Q]); a cell of a
    derived column is [option Q], where [None] is pandas' missing marker
    (NaN).  Rounding and overflow of binary floating point are not modelled.
    Scalars read out of a column by [generate_report] are numpy [float64]
    values, whose arithmetic never raises: they are modelled by [float64],
    finite rationals extended with the two infinities and NaN.

    Libraries.  The class computes its indicators with [ta] on top of
    pandas.  Each indicator below is the pandas expression the [ta] class
    evaluates, quoted in its comment: [rolling(...).mean()],
    [rolling(...).std(ddof=0)], [ewm(..., adjust=False).mean()], [diff],
    [where], [shift] and the element-wise comparisons.  The square root of
    the rolling deviation is a parameter. *)

From Stdlib Require Import QArith Lqa Lia.
From stdpp Require Import gmap strings list fin_maps.

Local Open Scope Q_scope.
Local Open Scope string_scope.

(** ** Errors and the method monad *)

Inductive exn :=
| ValueError (msg : string)
| KeyError (key : string)
| IndexError (msg : string)
| ZeroDivisionError.

Inductive result (A : Type) :=
| Ok (a : A)
| Err (e : exn).
Arguments Ok {A} a.
Arguments Err {A} e.

(** ** Bars, columns and the dataframe *)

(** One row fetched from the data provider.  The four prices are finite. *)
Record Bar := {
  timestamp : Z;
  bar_open : Q;
  bar_high : Q;
  bar_low : Q;
  bar_close : Q
}.

(** A column added to the table: [float64] cells ([None] is NaN) or
    booleans. *)
Inductive column :=
| FloatCol (cells : list (option Q))
| BoolCol (cells : list bool).

(** The table behind [self.data]: the fetched rows and the columns
    assigned by the methods, keyed by name. *)
Record DataFrame := {
  bars : list Bar;
  columns : gmap string column
}.

Record CryptoAnalyzer := {
  symbol : string;
  start_date : string;
  end_date : string;
  data : DataFrame
}.

Definition set_data (df : DataFrame) (a : CryptoAnalyzer) : CryptoAnalyzer :=
  {| symbol := symbol a; start_date := start_date a;
     end_date := end_date a; data := df |}.

(** A method body: it may read and update the object and may raise. *)
Definition M (A : Type) : Type := CryptoAnalyzer -> result A * CryptoAnalyzer.

Definition ret {A} (x : A) : M A := fun a => (Ok x, a).

Definition bind {A B} (m : M A) (k : A -> M B) : M B := fun a =>
  match m a with
  | (Ok x, a') => k x a'
  | (Err e, a') => (Err e, a')
  end.

Definition raise {A} (e : exn) : M A := fun a => (Err e, a).

Definition lift {A} (r : result A) : M A := fun a => (r, a).

Definition gets {A} (f : CryptoAnalyzer -> A) : M A := fun a => (Ok (f a), a).

Declare Scope method_scope.
Delimit Scope method_scope with method.
Notation "'let*' x ':=' m 'in' k" := (bind m (fun x => k))
  (at level 10, x binder, m at level 200, k at level 200) : method_scope.
Notation "'do' m 'then' k" := (bind m (fun _ => k))
  (at level 10, m at level 200, k at level 200) : method_scope.
Local Open Scope method_scope.

(** The price columns supplied by the provider. *)
Definition ohlc (df : DataFrame) (name : string) : option column :=
  if String.eqb name "Open" then Some (FloatCol (map (fun b => Some (bar_open b)) (bars df)))
  else if String.eqb name "High" then Some (FloatCol (map (fun b => Some (bar_high b)) (bars df)))
  else if String.eqb name "Low" then Some (FloatCol (map (fun b => Some (bar_low b)) (bars df)))
  else if String.eqb name "Close" then Some (FloatCol (map (fun b => Some (bar_close b)) (bars df)))
  else None.

(** [self.data[name]]: a missing column raises [KeyError]. *)
Definition getitem (name : string) : M column := fun a =>
  match ohlc (data a) name with
  | Some c => (Ok c, a)
  | None =>
      match columns (data a) !! name with
      | Some c => (Ok c, a)
      | None => (Err (KeyError name), a)
      end
  end.

(** [self.data[name] = c], for the names the methods assign (never a price
    column). *)
Definition setitem (name : string) (c : column) : M unit := fun a =>
  (Ok tt, set_data {| bars := bars (data a);
                      columns := <[name := c]> (columns (data a)) |} a).

(** [self.data['Close']] as the engine consumes it. *)
Definition closes (df : DataFrame) : list Q := map bar_close (bars df).

(** ** Arithmetic helpers *)

Definition Qlt_bool (x y : Q) : bool := negb (Qle_bool y x).

Definition Qsum (xs : list Q) : Q := fold_right Qplus 0 xs.

Definition Qnat (n : nat) : Q := inject_Z (Z.of_nat n).

(** ** Rolling and exponentially weighted windows (pandas) *)

(** The cells of the trailing window of width [w] that ends at index [i]:
    fewer than [w] of them while [i < w - 1]. *)
Definition window (w i : nat) (xs : list Q) : list Q :=
  drop (S i - w) (take (S i) xs).

(** [xs.rolling(w, min_periods=minp).mean()]: a value needs at least [minp]
    observations, and at least one. *)
Definition rolling_mean (w minp : nat) (xs : list Q) : list (option Q) :=
  imap (fun i _ =>
          let win := window w i xs in
          let nobs := length win in
          if (minp <=? nobs)%nat && (0 <? nobs)%nat
          then Some (Qsum win / Qnat nobs)
          else None) xs.

(** The population variance of a window (the [ddof=0] convention). *)
Definition variance0 (win : list Q) : Q :=
  let m := Qsum win / Qnat (length win) in
  Qsum (map (fun x => (x - m) * (x - m)) win) / Qnat (length win).

(** [xs.ewm(alpha=alpha, adjust=False).mean()] before masking: the first
    value seeds the recursion
    [y 0 = x 0], [y t = (1 - alpha) * y (t-1) + alpha * x t]. *)
Fixpoint ewm_from (alpha y : Q) (xs : list Q) : list Q :=
  match xs with
  | [] => []
  | x :: rest =>
      let y' := (1 - alpha) * y + alpha * x in
      y' :: ewm_from alpha y' rest
  end.

Definition ewm_values (alpha : Q) (xs : list Q) : list Q :=
  match xs with
  | [] => []
  | x0 :: rest => x0 :: ewm_from alpha x0 rest
  end.

(** [min_periods=minp] hides the values that have seen fewer than [minp]
    observations; the recursion itself still starts at index 0. *)
Definition ewm_mean (alpha : Q) (minp : nat) (xs : list Q) : list (option Q) :=
  imap (fun i y => if (minp <=? S i)%nat then Some y else None)
       (ewm_values alpha xs).

(** ** Indicators (the [ta] classes the analyzer instantiates) *)

(** [SMAIndicator(close, window).sma_indicator()] is
    [close.rolling(window, min_periods=window).mean()]. *)
Definition sma_indicator (close : list Q) (w : nat) : list (option Q) :=
  rolling_mean w w close.

(** [EMAIndicator(close, window).ema_indicator()] is
    [close.ewm(span=window, min_periods=window, adjust=False).mean()], with
    [alpha = 2 / (span + 1)]; pandas rejects a span below one. *)
Definition ema_indicator (close : list Q) (w : nat) : result (list (option Q)) :=
  if (w <? 1)%nat then Err (ValueError "span must satisfy: span >= 1")
  else Ok (ewm_mean (2 / (Qnat w + 1)) w close).

(** [close.diff(1)]: no value at index 0. *)
Definition diff (xs : list Q) : list (option Q) :=
  match xs with
  | [] => []
  | _ :: rest => None :: zip_with (fun prev cur => Some (cur - prev)) xs rest
  end.

(** [diff.where(diff > 0, 0.0)] and [-diff.where(diff < 0, 0.0)]: a missing
    difference fails both tests and becomes zero. *)
Definition up_direction (d : list (option Q)) : list Q :=
  map (fun c => match c with
                | Some x => if Qlt_bool 0 x then x else 0
                | None => 0
                end) d.

Definition down_direction (d : list (option Q)) : list Q :=
  map (fun c => - match c with
                  | Some x => if Qlt_bool x 0 then x else 0
                  | None => 0
                  end) d.

(** [np.where(emadn == 0, 100, 100 - (100 / (1 + emaup / emadn)))] at one
    index; NaN is not equal to zero and propagates through the formula. *)
Definition rsi_cell (emaup emadn : option Q) : option Q :=
  match emadn with
  | Some d =>
      if Qeq_bool d 0 then Some 100
      else match emaup with
           | Some u => Some (100 - 100 / (1 + u / d))
           | None => None
           end
  | None => None
  end.

Definition rsi_emaup (close : list Q) (w : nat) : list (option Q) :=
  ewm_mean (1 / Qnat w) w (up_direction (diff close)).

Definition rsi_emadn (close : list Q) (w : nat) : list (option Q) :=
  ewm_mean (1 / Qnat w) w (down_direction (diff close)).

(** [RSIIndicator(close, window).rsi()]: Wilder smoothing is
    [ewm(alpha=1/window, min_periods=window, adjust=False)]. *)
Definition rsi (close : list Q) (w : nat) : result (list (option Q)) :=
  if (w =? 0)%nat then Err ZeroDivisionError
  else Ok (zip_with rsi_cell (rsi_emaup close w) (rsi_emadn close w)).

(** Cell-wise float arithmetic of two aligned columns. *)
Definition cell_op (f : Q -> Q -> Q) (x y : option Q) : option Q :=
  match x, y with
  | Some a, Some b => Some (f a b)
  | _, _ => None
  end.

Section Engine.

(** The square root of the float library, which has no exact counterpart
    on rationals. *)
Variable sqrt_q : Q -> Q.

(** [xs.rolling(w, min_periods=minp).std(ddof=0)]. *)
Definition rolling_std (w minp : nat) (xs : list Q) : list (option Q) :=
  imap (fun i _ =>
          let win := window w i xs in
          let nobs := length win in
          if (minp <=? nobs)%nat && (0 <? nobs)%nat
          then Some (sqrt_q (variance0 win))
          else None) xs.

(** [BollingerBands(close, window, window_dev)]: moving average, and the
    bands [mavg + window_dev * mstd] and [mavg - window_dev * mstd]. *)
Definition bollinger_mavg (close : list Q) (w : nat) : list (option Q) :=
  rolling_mean w w close.

Definition bollinger_mstd (close : list Q) (w : nat) : list (option Q) :=
  rolling_std w w close.

Definition bollinger_hband (close : list Q) (w : nat) (dev : Q) : list (option Q) :=
  zip_with (cell_op Qplus) (bollinger_mavg close w)
           (map (option_map (Qmult dev)) (bollinger_mstd close w)).

Definition bollinger_lband (close : list Q) (w : nat) (dev : Q) : list (option Q) :=
  zip_with (cell_op Qminus) (bollinger_mavg close w)
           (map (option_map (Qmult dev)) (bollinger_mstd close w)).

(** [add_indicators]: seven derived columns, assigned in this order.  The
    defaults of [RSIIndicator] and [BollingerBands] are [window=14] and
    [window=20, window_dev=2]. *)
Definition add_indicators : M unit :=
  let* close := gets (fun a => closes (data a)) in
  do setitem "SMA20" (FloatCol (sma_indicator close 20)) then
  let* close := gets (fun a => closes (data a)) in
  do setitem "SMA50" (FloatCol (sma_indicator close 50)) then
  let* close := gets (fun a => closes (data a)) in
  let* ema_20 := lift (ema_indicator close 20) in
  do setitem "EMA20" (FloatCol ema_20) then
  let* close := gets (fun a => closes (data a)) in
  let* r := lift (rsi close 14) in
  do setitem "RSI" (FloatCol r) then
  let* close := gets (fun a => closes (data a)) in
  do setitem "BB_upper" (FloatCol (bollinger_hband close 20 2)) then
  do setitem "BB_lower" (FloatCol (bollinger_lband close 20 2)) then
  setitem "BB_middle" (FloatCol (bollinger_mavg close 20)).

End Engine.

(** ** Column operators used by the pattern detector *)

(** The cells of a column as floats; booleans compare as 1 and 0. *)
Definition as_float (c : column) : list (option Q) :=
  match c with
  | FloatCol xs => xs
  | BoolCol bs => map (fun b : bool => Some (if b then 1 else 0)) bs
  end.

(** [s.shift(1)]: every cell moves one index later, index 0 becomes NaN and
    the last cell is dropped. *)
Definition shift (xs : list (option Q)) : list (option Q) :=
  match xs with
  | [] => []
  | _ :: rest => None :: take (length rest) xs
  end.

(** Float comparisons: any comparison with NaN is [False]. *)
Definition cell_lt (x y : option Q) : bool :=
  match x, y with
  | Some a, Some b => Qlt_bool a b
  | _, _ => false
  end.

Definition cell_le (x y : option Q) : bool :=
  match x, y with
  | Some a, Some b => Qle_bool a b
  | _, _ => false
  end.

Definition series_gt (xs ys : list (option Q)) : list bool :=
  zip_with (fun x y => cell_lt y x) xs ys.
Definition series_lt (xs ys : list (option Q)) : list bool :=
  zip_with cell_lt xs ys.
Definition series_ge (xs ys : list (option Q)) : list bool :=
  zip_with (fun x y => cell_le y x) xs ys.
Definition series_le (xs ys : list (option Q)) : list bool :=
  zip_with cell_le xs ys.
Definition series_and (xs ys : list bool) : list bool :=
  zip_with andb xs ys.

(** [identify_patterns]: four boolean columns.  Each right-hand side is
    evaluated, reading its columns left to right, before it is assigned. *)
Definition identify_patterns : M unit :=
  let* fast := getitem "SMA20" in
  let* slow := getitem "SMA50" in
  let* fast_prev := getitem "SMA20" in
  let* slow_prev := getitem "SMA50" in
  do setitem "Golden_Cross"
       (BoolCol (series_and
                   (series_gt (as_float fast) (as_float slow))
                   (series_le (shift (as_float fast_prev))
                              (shift (as_float slow_prev))))) then
  let* fast := getitem "SMA20" in
  let* slow := getitem "SMA50" in
  let* fast_prev := getitem "SMA20" in
  let* slow_prev := getitem "SMA50" in
  do setitem "Death_Cross"
       (BoolCol (series_and
                   (series_lt (as_float fast) (as_float slow))
                   (series_ge (shift (as_float fast_prev))
                              (shift (as_float slow_prev))))) then
  let* r := getitem "RSI" in
  do setitem "Oversold"
       (BoolCol (map (fun x => cell_lt x (Some 30)) (as_float r))) then
  let* r := getitem "RSI" in
  setitem "Overbought"
    (BoolCol (map (fun x => cell_lt (Some 70) x) (as_float r))).

(** ** Scalars of the report *)

(** A numpy [float64] scalar.  Its arithmetic follows IEEE 754 and does not
    raise: dividing by zero yields an infinity, or NaN for [0 / 0], with at
    most a warning. *)
Inductive float64 :=
| Finite (q : Q)
| Inf (negative : bool)
| NaN.

Definition is_neg (q : Q) : bool := Qlt_bool q 0.

Definition f_sub (x y : float64) : float64 :=
  match x, y with
  | Finite a, Finite b => Finite (a - b)
  | Finite _, Inf s => Inf (negb s)
  | Inf s, Finite _ => Inf s
  | Inf s, Inf t => if Bool.eqb s t then NaN else Inf s
  | _, _ => NaN
  end.

Definition f_div (x y : float64) : float64 :=
  match x, y with
  | Finite a, Finite b =>
      if Qeq_bool b 0
      then (if Qeq_bool a 0 then NaN else Inf (is_neg a))
      else Finite (a / b)
  | Finite _, Inf _ => Finite 0
  | Inf s, Finite b => Inf (xorb s (is_neg b))
  | _, _ => NaN
  end.

Definition f_mul (x y : float64) : float64 :=
  match x, y with
  | Finite a, Finite b => Finite (a * b)
  | Finite a, Inf s | Inf s, Finite a =>
      if Qeq_bool a 0 then NaN else Inf (xorb s (is_neg a))
  | Inf s, Inf t => Inf (xorb s t)
  | _, _ => NaN
  end.

Inductive scalar :=
| SFloat (x : float64)
| SBool (b : bool).

Definition cell_float (c : option Q) : float64 :=
  match c with
  | Some q => Finite q
  | None => NaN
  end.

(** [s[0]] and [s[-1]] on a column indexed by dates are positional; an
    empty column raises [IndexError]. *)
Definition item_first {A} (xs : list A) : result A :=
  match xs with
  | [] => Err (IndexError "index 0 is out of bounds for axis 0 with size 0")
  | x :: _ => Ok x
  end.

Definition item_last {A} (xs : list A) : result A :=
  match last xs with
  | None => Err (IndexError "index -1 is out of bounds for axis 0 with size 0")
  | Some x => Ok x
  end.

Definition column_last (c : column) : result scalar :=
  match c with
  | FloatCol xs =>
      match item_last xs with
      | Ok x => Ok (SFloat (cell_float x))
      | Err e => Err e
      end
  | BoolCol bs =>
      match item_last bs with
      | Ok b => Ok (SBool b)
      | Err e => Err e
      end
  end.

(** [len(self.data[mask])]: the rows a boolean column selects.  A float
    column used as a key is read as a list of column labels, none of which
    exists. *)
Definition mask_len (c : column) : result nat :=
  match c with
  | BoolCol bs => Ok (length (filter (fun b => b = true) bs))
  | FloatCol _ => Err (KeyError "None of the labels are in the [columns]")
  end.

(** ** The report *)

Record Report := {
  r_symbol : string;
  r_period : string;
  r_current_price : float64;
  r_price_change : float64;
  r_rsi : scalar;
  r_golden_crosses : nat;
  r_death_crosses : nat;
  r_times_oversold : nat;
  r_times_overbought : nat
}.

Definition close_first : M float64 :=
  let* c := gets (fun a => closes (data a)) in
  let* x := lift (item_first c) in
  ret (Finite x).

Definition close_last : M float64 :=
  let* c := gets (fun a => closes (data a)) in
  let* x := lift (item_last c) in
  ret (Finite x).

(** [((Close[-1] - Close[0]) / Close[0]) * 100]. *)
Definition price_change_pct : M float64 :=
  let* last_close := close_last in
  let* first_close := close_first in
  let* first_close' := close_first in
  ret (f_mul (f_div (f_sub last_close first_close) first_close') (Finite 100)).

Definition count_rows (name : string) : M nat :=
  let* mask := getitem name in
  lift (mask_len mask).

(** [generate_report]: the entries of the dictionary are evaluated in the
    order they are written. *)
Definition generate_report : M Report :=
  let* sym := gets symbol in
  let* sd := gets start_date in
  let* ed := gets end_date in
  let* price := close_last in
  let* change := price_change_pct in
  let* r := getitem "RSI" in
  let* rsi_latest := lift (column_last r) in
  let* golden := count_rows "Golden_Cross" in
  let* death := count_rows "Death_Cross" in
  let* oversold := count_rows "Oversold" in
  let* overbought := count_rows "Overbought" in
  ret {| r_symbol := sym;
         r_period := sd ++ " to " ++ ed;
         r_current_price := price;
         r_price_change := change;
         r_rsi := rsi_latest;
         r_golden_crosses := golden;
         r_death_crosses := death;
         r_times_oversold := oversold;
         r_times_overbought := overbought |}.

(** ** Construction and the driver *)

(** What the object takes from outside: the clock, already formatted as
    [%Y-%m-%d], and the history request of the data provider. *)
Record Env := {
  today : string;
  year_ago : string;
  history : string -> string -> string -> list Bar
}.

(** [x or d]: [None] and the empty string are both falsy. *)
Definition or_default (x : option string) (d : string) : string :=
  match x with
  | Some s => if String.eqb s "" then d else s
  | None => d
  end.

Definition put_data (df : DataFrame) : M unit := fun a => (Ok tt, set_data df a).

Definition load_data (env : Env) : M unit :=
  let* sym := gets symbol in
  let* sd := gets start_date in
  let* ed := gets end_date in
  do put_data {| bars := history env (sym ++ "-USD") sd ed; columns := ∅ |} then
  let* df := gets data in
  match bars df with
  | [] =>
      let* sym := gets symbol in
      raise (ValueError ("No data found for " ++ sym))
  | _ :: _ => ret tt
  end.

(** [CryptoAnalyzer(symbol, start_date, end_date)]: an exception of
    [load_data] leaves the caller without an object.  The table is [None]
    until [load_data] assigns it; nothing reads it before, so the initial
    object carries an empty table. *)
Definition CryptoAnalyzer_init (env : Env) (sym : string)
    (sd ed : option string) : result CryptoAnalyzer :=
  let self := {| symbol := sym;
                 start_date := or_default sd (year_ago env);
                 end_date := or_default ed (today env);
                 data := {| bars := []; columns := ∅ |} |} in
  match load_data env self with
  | (Ok _, a) => Ok a
  | (Err e, _) => Err e
  end.

(** [main], up to the report it prints; the chart drawn afterwards is not
    part of the engine. *)
Definition main (sqrt_q : Q -> Q) (env : Env) : result Report :=
  match CryptoAnalyzer_init env "BTC" None None with
  | Err e => Err e
  | Ok analyzer =>
      fst ((do add_indicators sqrt_q then
            do identify_patterns then
            generate_report) analyzer)
  end.

(** ** Specification-side notions *)

(** A method body that leaves the object as it found it. *)
Definition readonly {A} (m : M A) : Prop := forall a, snd (m a) = a.

Definition col_length (c : column) : nat :=
  match c with
  | FloatCol xs => length xs
  | BoolCol bs => length bs
  end.

(** Every column is as long as the series it annotates. *)
Definition aligned (df : DataFrame) : Prop :=
  map_Forall (fun _ c => col_length c = length (bars df)) (columns df).

Definition is_signal (df : DataFrame) (name : string) : Prop :=
  exists bs, columns df !! name = Some (BoolCol bs).

(** The state the report reducer expects: a non-empty series that went
    through [add_indicators] and [identify_patterns]. *)
Definition annotated (a : CryptoAnalyzer) : Prop :=
  bars (data a) <> [] /\
  aligned (data a) /\
  (exists r, columns (data a) !! "RSI" = Some (FloatCol r)) /\
  is_signal (data a) "Golden_Cross" /\
  is_signal (data a) "Death_Cross" /\
  is_signal (data a) "Oversold" /\
  is_signal (data a) "Overbought".

(** The crossover rules in the words of the specification: strictly on the
    new side at [i], on the old side or on the line at [i - 1], all four
    cells present; nothing at index 0. *)
Definition golden_cross_spec (fast slow : list (option Q)) (i : nat) : Prop :=
  exists j f s f' s',
    i = S j /\
    fast !! i = Some (Some f) /\ slow !! i = Some (Some s) /\
    fast !! j = Some (Some f') /\ slow !! j = Some (Some s') /\
    s < f /\ f' <= s'.

Definition death_cross_spec (fast slow : list (option Q)) (i : nat) : Prop :=
  exists j f s f' s',
    i = S j /\
    fast !! i = Some (Some f) /\ slow !! i = Some (Some s) /\
    fast !! j = Some (Some f') /\ slow !! j = Some (Some s') /\
    f < s /\ s' <= f'.

(** The cells [identify_patterns] assigns to its two crossover columns. *)
Definition golden_cells (fast slow : column) : list bool :=
  series_and (series_gt (as_float fast) (as_float slow))
             (series_le (shift (as_float fast)) (shift (as_float slow))).

Definition death_cells (fast slow : column) : list bool :=
  series_and (series_lt (as_float fast) (as_float slow))
             (series_ge (shift (as_float fast)) (shift (as_float slow))).

Definition set_columns (cols : gmap string column) (a : CryptoAnalyzer) : CryptoAnalyzer :=
  set_data {| bars := bars (data a); columns := cols |} a.

(** A column that warms up over a window of [w] on a series of length
    [L]: all absent when the series is shorter than the window, otherwise
    [w - 1] absent cells followed by [L - w + 1] present ones. *)
Definition warmed_up (w L : nat) (col : list (option Q)) : Prop :=
  length col = L /\
  ((L < w)%nat -> col = replicate L None) /\
  ((w <= L)%nat ->
   exists vals, length vals = (L - w + 1)%nat /\
                col = (replicate (w - 1) None ++ map Some vals)%list).

(** The table of [a] has a float column [name] that warms up over [w]. *)
Definition warm_column (a : CryptoAnalyzer) (name : string) (w : nat) : Prop :=
  exists col, columns (data a) !! name = Some (FloatCol col) /\
              warmed_up w (length (bars (data a))) col.

(** The same, cell by cell: a cell is present exactly from index [k] on. *)
Definition present_from (k : nat) (col : list (option Q)) : Prop :=
  forall i c, col !! i = Some c -> (is_Some c <-> (k <= i)%nat).

(** The recursion of the exponential average started at index 0. *)
Fixpoint ema_recursion (alpha : Q) (close : list Q) (i : nat) : Q :=
  match i with
  | O => nth 0 close 0
  | S j => alpha * nth (S j) close 0 + (1 - alpha) * ema_recursion alpha close j
  end.

(** The simple mean of the first [w] closes. *)
Definition mean_first (w : nat) (close : list Q) : Q :=
  Qsum (take w close) / Qnat w.

(** ** Sample inputs *)

Definition bar_at (t : Z) (c : Q) : Bar :=
  {| timestamp := t; bar_open := c; bar_high := c; bar_low := c; bar_close := c |}.

Definition bars_of (cs : list Q) : list Bar :=
  imap (fun i c => bar_at (Z.of_nat i) c) cs.

(** A provider that answers every request with the given closes. *)
Definition env_of (cs : list Q) : Env :=
  {| today := "2024-06-30"; year_ago := "2023-07-01";
     history := fun _ _ _ => bars_of cs |}.

(** An analyzer over the given closes with hand-written columns. *)
Definition analyzer_of (cs : list Q) (cols : gmap string column) : CryptoAnalyzer :=
  {| symbol := "BTC"; start_date := "2023-07-01"; end_date := "2024-06-30";
     data := {| bars := bars_of cs; columns := cols |} |}.

(** Two moving averages that touch at index 1 and part at index 2. *)
Definition sample_crossing : CryptoAnalyzer :=
  analyzer_of [4; 5; 6; 7]
    (<["SMA20" := FloatCol [None; Some 5; Some 7; Some 5]]>
     (<["SMA50" := FloatCol [None; Some 5; Some 6; Some 6]]>
      (<["RSI" := FloatCol [None; None; Some 100; Some 20]]> ∅))).

Definition sample_annotated : CryptoAnalyzer :=
  analyzer_of [4; 5; 6]
    (<["RSI" := FloatCol [None; None; Some 100]]>
     (<["Golden_Cross" := BoolCol [false; true; false]]>
      (<["Death_Cross" := BoolCol [false; false; false]]>
       (<["Oversold" := BoolCol [false; false; false]]>
        (<["Overbought" := BoolCol [false; false; true]]> ∅))))).

(** A fully annotated series whose first close is zero. *)
Definition sample_zero_first : CryptoAnalyzer :=
  analyzer_of [0; 5]
    (<["RSI" := FloatCol [None; None]]>
     (<["Golden_Cross" := BoolCol [false; false]]>
      (<["Death_Cross" := BoolCol [false; false]]>
       (<["Oversold" := BoolCol [false; false]]>
        (<["Overbought" := BoolCol [false; false]]> ∅))))).

(** Eleven closes of 10 followed by 12. *)
Definition sample_flat_then_up : list Q := (replicate 11 10 ++ [12])%list.

(** Nineteen closes of 0 followed by 21. *)
Definition sample_late_jump : list Q := (replicate 19 0 ++ [21])%list.

(** ** Names the two stages assign *)

Definition indicator_names : list string :=
  ["SMA20"; "SMA50"; "EMA20"; "RSI"; "BB_upper"; "BB_lower"; "BB_middle"].

Definition signal_names : list string :=
  ["Golden_Cross"; "Death_Cross"; "Oversold"; "Overbought"].

(** The number of rows a boolean column selects. *)
Definition count_true (bs : list bool) : nat :=
  length (filter (fun b => b = true) bs).

(** The RSI column [add_indicators] computes from the closes. *)
Definition pipeline_rsi (close : list Q) : list (option Q) :=
  zip_with rsi_cell (rsi_emaup close 14) (rsi_emadn close 14).


(** Closes that never fall, and closes that fall at every step. *)
Definition non_decreasing (xs : list Q) : Prop :=
  forall i a b, xs !! i = Some a -> xs !! S i = Some b -> a <= b.

Definition strictly_decreasing (xs : list Q) : Prop :=
  forall i a b, xs !! i = Some a -> xs !! S i = Some b -> b < a.

(** ** The chart of [plot_analysis] *)

(** What the method hands to the plotting library: the traces and
    annotations added to the figure, in order, and its layout. *)
Inductive trace :=
| Candlestick (x : list Z) (c_open c_high c_low c_close : column) (name : string)
| Scatter (x : list Z) (y : column) (name : string) (color : string)
          (dash : option string).

(** [df.loc[label, column]]: a scalar when the label occurs once in the
    index, the matching cells as a series when it occurs several times. *)
Inductive loc_value :=
| LocScalar (v : scalar)
| LocSeries (vs : list scalar).

Record annotation := {
  ann_x : Z;
  ann_y : loc_value;
  ann_text : string;
  ann_showarrow : bool;
  ann_arrowhead : nat;
  ann_arrowcolor : string
}.

Record Figure := {
  fig_traces : list trace;
  fig_annotations : list annotation;
  fig_title : string;
  fig_yaxis_title : string;
  fig_xaxis_title : string;
  fig_template : string
}.

Definition trace_name (t : trace) : string :=
  match t with
  | Candlestick _ _ _ _ _ name => name
  | Scatter _ _ name _ _ => name
  end.

(** [self.data.index]. *)
Definition index (df : DataFrame) : list Z := map timestamp (bars df).

Definition scalars (c : column) : list scalar :=
  match c with
  | FloatCol xs => map (fun x => SFloat (cell_float x)) xs
  | BoolCol bs => map SBool bs
  end.

(** [self.data[mask].index]: the labels of the rows a boolean column of the
    table selects.  As in [mask_len], a float column used as a key is read
    as a list of labels. *)
Definition mask_index (df : DataFrame) (mask : column) : result (list Z) :=
  match mask with
  | BoolCol bs =>
      Ok (map fst (filter (fun p => snd p = true) (zip (index df) bs)))
  | FloatCol _ => Err (KeyError "None of the labels are in the [columns]")
  end.

(** [self.data.loc[point, name]]. *)
Definition loc (point : Z) (name : string) : M loc_value :=
  let* c := getitem name in
  let* idx := gets (fun a => index (data a)) in
  match filter (fun p => fst p = point) (zip idx (scalars c)) with
  | [] => raise (KeyError "label not in index")
  | [p] => ret (LocScalar (snd p))
  | ps => ret (LocSeries (map snd ps))
  end.

(** A [for] loop whose body may raise. *)
Fixpoint for_each {A B} (body : A -> M B) (xs : list A) : M (list B) :=
  match xs with
  | [] => ret []
  | x :: rest =>
      let* y := body x in
      let* ys := for_each body rest in
      ret (y :: ys)
  end.

Definition mark (text color name : string) (point : Z) : M annotation :=
  let* y := loc point name in
  ret {| ann_x := point; ann_y := y; ann_text := text;
         ann_showarrow := true; ann_arrowhead := 1; ann_arrowcolor := color |}.

(** [plot_analysis], up to the figure it shows. *)
Definition plot_analysis : M Figure :=
  let* idx := gets (fun a => index (data a)) in
  let* c_open := getitem "Open" in
  let* c_high := getitem "High" in
  let* c_low := getitem "Low" in
  let* c_close := getitem "Close" in
  let price := Candlestick idx c_open c_high c_low c_close "Price" in
  let* idx := gets (fun a => index (data a)) in
  let* sma20 := getitem "SMA20" in
  let t_sma20 := Scatter idx sma20 "SMA20" "orange" None in
  let* idx := gets (fun a => index (data a)) in
  let* sma50 := getitem "SMA50" in
  let t_sma50 := Scatter idx sma50 "SMA50" "blue" None in
  let* idx := gets (fun a => index (data a)) in
  let* upper := getitem "BB_upper" in
  let t_upper := Scatter idx upper "BB Upper" "gray" (Some "dash") in
  let* idx := gets (fun a => index (data a)) in
  let* lower := getitem "BB_lower" in
  let t_lower := Scatter idx lower "BB Lower" "gray" (Some "dash") in
  let* golden := getitem "Golden_Cross" in
  let* df := gets data in
  let* golden_cross_points := lift (mask_index df golden) in
  let* death := getitem "Death_Cross" in
  let* df := gets data in
  let* death_cross_points := lift (mask_index df death) in
  let* golden_marks := for_each (mark "Golden Cross" "green" "Low") golden_cross_points in
  let* death_marks := for_each (mark "Death Cross" "red" "High") death_cross_points in
  let* sym := gets symbol in
  ret {| fig_traces := [price; t_sma20; t_sma50; t_upper; t_lower];
         fig_annotations := (golden_marks ++ death_marks)%list;
         fig_title := sym ++ " Technical Analysis";
         fig_yaxis_title := "Price";
         fig_xaxis_title := "Date";
         fig_template := "plotly_dark" |}.

(** A table with the columns the chart reads. *)
Definition sample_chart : CryptoAnalyzer :=
  analyzer_of [4; 5; 6; 7]
    (<["SMA20" := FloatCol [None; Some 5; Some 7; Some 5]]>
     (<["SMA50" := FloatCol [None; Some 5; Some 6; Some 6]]>
      (<["BB_upper" := FloatCol [None; Some 6; Some 8; Some 8]]>
       (<["BB_lower" := FloatCol [None; Some 4; Some 4; Some 4]]>
        (<["Golden_Cross" := BoolCol [false; false; true; false]]>
         (<["Death_Cross" := BoolCol [false; false; false; true]]> ∅)))))).
(** * Properties *)

(** ** Read-only method bodies *)

Lemma readonly_ret {A} (x : A) : readonly (ret x).
Proof. intros a. reflexivity. Qed.

Lemma readonly_gets {A} (f : CryptoAnalyzer -> A) : readonly (gets f).
Proof. intros a. reflexivity. Qed.

Lemma readonly_lift {A} (r : result A) : readonly (lift r).
Proof. intros a. reflexivity. Qed.

Lemma readonly_getitem name : readonly (getitem name).
Proof.
  intros a. unfold getitem.
  destruct (ohlc (data a) name); [reflexivity|].
  destruct (columns (data a) !! name); reflexivity.
Qed.

Lemma readonly_bind {A B} (m : M A) (k : A -> M B) :
  readonly m -> (forall x, readonly (k x)) -> readonly (bind m k).
Proof.
  intros Hm Hk a. unfold bind.
  specialize (Hm a). destruct (m a) as [[x|e] a']; simpl in Hm; subst a'.
  - apply Hk.
  - reflexivity.
Qed.

Create HintDb readonly.
#[local] Hint Resolve readonly_ret readonly_gets readonly_lift
  readonly_getitem : readonly.

Ltac readonly_steps :=
  repeat (first [ apply readonly_bind; [|intros ?] | solve [auto with readonly] ]).

Lemma readonly_close_first : readonly close_first.
Proof. unfold close_first. readonly_steps. Qed.

Lemma readonly_close_last : readonly close_last.
Proof. unfold close_last. readonly_steps. Qed.

#[local] Hint Resolve readonly_close_first readonly_close_last : readonly.

Lemma readonly_price_change_pct : readonly price_change_pct.
Proof. unfold price_change_pct. readonly_steps. Qed.

Lemma readonly_count_rows name : readonly (count_rows name).
Proof. unfold count_rows. readonly_steps. Qed.

#[local] Hint Resolve readonly_price_change_pct readonly_count_rows : readonly.

Lemma readonly_generate_report : readonly generate_report.
Proof. unfold generate_report. readonly_steps. Qed.

(** ** Stepping through a method body *)

Lemma bind_ok {A B} (m : M A) (k : A -> M B) a x a' :
  m a = (Ok x, a') -> bind m k a = k x a'.
Proof. intros H. unfold bind. rewrite H. reflexivity. Qed.

Lemma bind_err {A B} (m : M A) (k : A -> M B) a e a' :
  m a = (Err e, a') -> bind m k a = (Err e, a').
Proof. intros H. unfold bind. rewrite H. reflexivity. Qed.

Lemma getitem_derived name c a :
  ohlc (data a) name = None ->
  columns (data a) !! name = Some c ->
  getitem name a = (Ok c, a).
Proof. intros H1 H2. unfold getitem. rewrite H1, H2. reflexivity. Qed.

Lemma getitem_missing name a :
  ohlc (data a) name = None ->
  columns (data a) !! name = None ->
  getitem name a = (Err (KeyError name), a).
Proof. intros H1 H2. unfold getitem. rewrite H1, H2. reflexivity. Qed.

Lemma closes_length df : length (closes df) = length (bars df).
Proof. unfold closes. apply length_map. Qed.

Lemma item_first_ok {A} (xs : list A) :
  xs <> [] -> exists x, item_first xs = Ok x /\ head xs = Some x.
Proof. destruct xs as [|x xs]; [congruence|]. intros _. exists x. split; reflexivity. Qed.

Lemma item_last_ok {A} (xs : list A) :
  xs <> [] -> exists x, item_last xs = Ok x /\ last xs = Some x.
Proof.
  intros Hne. unfold item_last.
  destruct (last xs) as [x|] eqn:Hl.
  - exists x. split; reflexivity.
  - apply last_None in Hl. congruence.
Qed.

Lemma closes_nonempty a : bars (data a) <> [] -> closes (data a) <> [].
Proof.
  intros Hne Hc. apply Hne. apply length_zero_iff_nil.
  rewrite <- closes_length, Hc. reflexivity.
Qed.

Lemma close_first_ok a :
  bars (data a) <> [] ->
  exists x, close_first a = (Ok (Finite x), a) /\ head (closes (data a)) = Some x.
Proof.
  intros Hne. destruct (item_first_ok (closes (data a)) (closes_nonempty a Hne)) as (x & Hx & Hh).
  exists x. split; [|exact Hh].
  unfold close_first, bind, gets, lift, ret. rewrite Hx. reflexivity.
Qed.

Lemma close_last_ok a :
  bars (data a) <> [] ->
  exists x, close_last a = (Ok (Finite x), a) /\ last (closes (data a)) = Some x.
Proof.
  intros Hne. destruct (item_last_ok (closes (data a)) (closes_nonempty a Hne)) as (x & Hx & Hh).
  exists x. split; [|exact Hh].
  unfold close_last, bind, gets, lift, ret. rewrite Hx. reflexivity.
Qed.

(** The value of the price-change entry on a non-empty series, whatever the
    first close is. *)
Lemma price_change_pct_ok a :
  bars (data a) <> [] ->
  exists first_close last_close,
    head (closes (data a)) = Some first_close /\
    last (closes (data a)) = Some last_close /\
    price_change_pct a =
      (Ok (f_mul (f_div (f_sub (Finite last_close) (Finite first_close))
                        (Finite first_close)) (Finite 100)), a).
Proof.
  intros Hne.
  destruct (close_first_ok a Hne) as (f & Hf & Hhead).
  destruct (close_last_ok a Hne) as (l & Hl & Hlast).
  exists f, l. repeat split; try assumption.
  unfold price_change_pct.
  rewrite (bind_ok _ _ _ _ _ Hl), (bind_ok _ _ _ _ _ Hf), (bind_ok _ _ _ _ _ Hf).
  reflexivity.
Qed.

Lemma count_rows_ok name bs a :
  ohlc (data a) name = None ->
  columns (data a) !! name = Some (BoolCol bs) ->
  count_rows name a = (Ok (length (filter (fun b => b = true) bs)), a).
Proof.
  intros H1 H2. unfold count_rows.
  rewrite (bind_ok _ _ _ _ _ (getitem_derived _ _ _ H1 H2)). reflexivity.
Qed.

Lemma generate_report_returns a :
  annotated a ->
  exists r, generate_report a = (Ok r, a) /\
            price_change_pct a = (Ok (r_price_change r), a).
Proof.
  intros (Hne & Hal & (r & Hr) & (g & Hg) & (d & Hd) & (os & Hos) & (ob & Hob)).
  destruct (close_last_ok a Hne) as (l & Hl & _).
  destruct (price_change_pct_ok a Hne) as (f & l' & _ & _ & Hpc).
  assert (Hrl : exists x, item_last r = Ok x).
  { destruct (item_last_ok r) as (x & Hx & _); [|eauto].
    intros ->. apply (Hal "RSI") in Hr. simpl in Hr.
    apply Hne. apply length_zero_iff_nil. congruence. }
  destruct Hrl as (x & Hx).
  eexists. split.
  - unfold generate_report.
    unfold gets at 1 2 3. unfold bind at 1 2 3.
    rewrite (bind_ok _ _ _ _ _ Hl), (bind_ok _ _ _ _ _ Hpc).
    rewrite (bind_ok _ _ _ _ _ (getitem_derived "RSI" _ _ eq_refl Hr)).
    unfold lift at 1, column_last. rewrite Hx. unfold bind at 1.
    rewrite (bind_ok _ _ _ _ _ (count_rows_ok "Golden_Cross" _ _ eq_refl Hg)).
    rewrite (bind_ok _ _ _ _ _ (count_rows_ok "Death_Cross" _ _ eq_refl Hd)).
    rewrite (bind_ok _ _ _ _ _ (count_rows_ok "Oversold" _ _ eq_refl Hos)).
    rewrite (bind_ok _ _ _ _ _ (count_rows_ok "Overbought" _ _ eq_refl Hob)).
    reflexivity.
  - simpl. exact Hpc.
Qed.

(** C9.  [generate_report] never changes the analyzer: after the call the
    object, and with it every column of the table, is the one it started
    from, whether a report is returned or an exception is raised; and on an
    annotated, non-empty series it does return a report. *)
Theorem generate_report_frame :
  (forall a, snd (generate_report a) = a) /\
  (forall a, annotated a -> exists r, generate_report a = (Ok r, a)).
Proof.
  split.
  - exact readonly_generate_report.
  - intros a Ha. destruct (generate_report_returns a Ha) as (r & Hr & _). eauto.
Qed.

Lemma generate_report_frame_witness :
  snd (generate_report sample_annotated) = sample_annotated /\
  exists r, generate_report sample_annotated = (Ok r, sample_annotated).
Proof.
  split.
  - apply (proj1 generate_report_frame).
  - apply (proj2 generate_report_frame).
    unfold annotated, is_signal.
    split; [discriminate|].
    split; [unfold aligned; refine (bool_decide_unpack _ _); vm_compute; exact I|].
    repeat split; eexists; vm_compute; reflexivity.
Defined.

(** ** Construction *)

Lemma load_data_empty env a :
  history env (symbol a ++ "-USD") (start_date a) (end_date a) = [] ->
  fst (load_data env a) = Err (ValueError ("No data found for " ++ symbol a)).
Proof.
  intros H. unfold load_data, bind, gets, put_data, raise. simpl. rewrite H. reflexivity.
Qed.

Lemma init_empty env sym sd ed :
  history env (sym ++ "-USD") (or_default sd (year_ago env))
          (or_default ed (today env)) = [] ->
  CryptoAnalyzer_init env sym sd ed = Err (ValueError ("No data found for " ++ sym)).
Proof.
  intros H. unfold CryptoAnalyzer_init.
  match goal with |- context [load_data env ?s] =>
    pose proof (load_data_empty env s H) as Hl; destruct (load_data env s) as [[u|e] a']
  end; simpl in Hl; congruence.
Qed.

(** What a successfully constructed analyzer looks like: the fetched bars,
    at least one of them, and no added column. *)
Lemma init_ok env sym sd ed a :
  CryptoAnalyzer_init env sym sd ed = Ok a ->
  symbol a = sym /\
  bars (data a) = history env (sym ++ "-USD") (start_date a) (end_date a) /\
  bars (data a) <> [] /\
  columns (data a) = ∅.
Proof.
  unfold CryptoAnalyzer_init, load_data, bind, gets, put_data, raise, ret. simpl.
  destruct (history env (sym ++ "-USD") (or_default sd (year_ago env))
                    (or_default ed (today env))) as [|b bs] eqn:Hh; simpl.
  - discriminate.
  - intros [= <-]. simpl. rewrite Hh. repeat split. discriminate.
Qed.

(** C8.  When the provider returns no bar, the constructor raises
    [ValueError] and hands out no analyzer, and [main] ends with that same
    error: neither [add_indicators] nor [identify_patterns] runs. *)
Theorem empty_series_aborts sqrt_q env :
  (forall sym sd ed,
      history env (sym ++ "-USD") (or_default sd (year_ago env))
              (or_default ed (today env)) = [] ->
      CryptoAnalyzer_init env sym sd ed
      = Err (ValueError ("No data found for " ++ sym))) /\
  (history env "BTC-USD" (year_ago env) (today env) = [] ->
   main sqrt_q env = Err (ValueError "No data found for BTC")).
Proof.
  split.
  - intros sym sd ed H. apply init_empty. exact H.
  - intros H. unfold main. rewrite (init_empty env "BTC" None None H). reflexivity.
Qed.

Lemma empty_series_aborts_witness :
  CryptoAnalyzer_init (env_of []) "ETH" (Some "2024-01-01") None
  = Err (ValueError "No data found for ETH") /\
  main (fun q => q) (env_of []) = Err (ValueError "No data found for BTC").
Proof.
  split.
  - apply (proj1 (empty_series_aborts (fun q => q) (env_of []))). reflexivity.
  - apply (proj2 (empty_series_aborts (fun q => q) (env_of []))). reflexivity.
Defined.

(** C10.  On a freshly constructed analyzer, which holds a non-empty series
    and no derived column yet, [identify_patterns] raises [KeyError] for
    ['SMA20'] at its first read and assigns no signal column. *)
Theorem identify_patterns_needs_indicators env sym sd ed a :
  CryptoAnalyzer_init env sym sd ed = Ok a ->
  bars (data a) <> [] /\
  identify_patterns a = (Err (KeyError "SMA20"), a).
Proof.
  intros H. apply init_ok in H as (_ & _ & Hne & Hcols).
  split; [exact Hne|].
  unfold identify_patterns.
  apply bind_err. apply getitem_missing; [reflexivity|].
  rewrite Hcols. apply lookup_empty.
Qed.

Lemma identify_patterns_needs_indicators_witness :
  identify_patterns (analyzer_of [4; 5; 6] ∅)
  = (Err (KeyError "SMA20"), analyzer_of [4; 5; 6] ∅).
Proof.
  apply (identify_patterns_needs_indicators (env_of [4; 5; 6]) "BTC" None None).
  reflexivity.
Defined.

(** ** Columns cell by cell *)

Lemma Qlt_bool_iff x y : Qlt_bool x y = true <-> x < y.
Proof.
  unfold Qlt_bool. rewrite negb_true_iff. split.
  - intros H. apply Qnot_le_lt. intros Hle. apply Qle_bool_iff in Hle. congruence.
  - intros H. destruct (Qle_bool y x) eqn:E; [|reflexivity].
    apply Qle_bool_iff in E. exfalso. exact (Qlt_not_le _ _ H E).
Qed.

Lemma cell_lt_true x y :
  cell_lt x y = true <-> exists a b, x = Some a /\ y = Some b /\ a < b.
Proof.
  split.
  - destruct x as [a|], y as [b|]; simpl; try discriminate.
    intros H. exists a, b. repeat split. apply Qlt_bool_iff, H.
  - intros (a & b & -> & -> & H). simpl. apply Qlt_bool_iff, H.
Qed.

Lemma cell_le_true x y :
  cell_le x y = true <-> exists a b, x = Some a /\ y = Some b /\ a <= b.
Proof.
  split.
  - destruct x as [a|], y as [b|]; simpl; try discriminate.
    intros H. exists a, b. repeat split. apply Qle_bool_iff, H.
  - intros (a & b & -> & -> & H). simpl. apply Qle_bool_iff, H.
Qed.

Lemma zip_with_lookup_true {A B} (f : A -> B -> bool) (xs : list A) (ys : list B) i :
  zip_with f xs ys !! i = Some true <->
  exists x y, xs !! i = Some x /\ ys !! i = Some y /\ f x y = true.
Proof.
  rewrite lookup_zip_with. split.
  - destruct (xs !! i) as [x|]; simpl; [|discriminate].
    destruct (ys !! i) as [y|]; simpl; [|discriminate].
    intros [= H]. eauto.
  - intros (x & y & -> & -> & H). simpl. congruence.
Qed.

Lemma shift_length xs : length (shift xs) = length xs.
Proof.
  destruct xs as [|x xs]; [reflexivity|].
  unfold shift. cbn [length]. rewrite length_take. cbn [length]. lia.
Qed.

Lemma shift_lookup_0 xs c : shift xs !! 0%nat = Some c -> c = None.
Proof. destruct xs; simpl; congruence. Qed.

Lemma shift_lookup_S xs j c :
  shift xs !! S j = Some c <-> xs !! j = Some c /\ (S j < length xs)%nat.
Proof.
  destruct xs as [|x xs].
  - simpl. split; [discriminate|]. intros [_ H]. simpl in H. lia.
  - unfold shift.
    change ((None :: take (length xs) (x :: xs)) !! S j)
      with (take (length xs) (x :: xs) !! j).
    cbn [length]. split.
    + intros H. assert (j < length xs)%nat.
      { apply lookup_lt_Some in H. rewrite length_take in H. lia. }
      rewrite lookup_take_lt in H by assumption. split; [assumption|lia].
    + intros [H Hlt]. rewrite lookup_take_lt by lia. assumption.
Qed.

Lemma golden_cells_spec fast slow i :
  golden_cells (FloatCol fast) (FloatCol slow) !! i = Some true <->
  golden_cross_spec fast slow i.
Proof.
  unfold golden_cells, series_and, series_gt, series_le, golden_cross_spec. simpl.
  rewrite zip_with_lookup_true. split.
  - intros (x & y & Hx & Hy & Hxy).
    apply andb_true_iff in Hxy as [-> ->].
    apply zip_with_lookup_true in Hx as (f & s & Hf & Hs & Hlt).
    apply zip_with_lookup_true in Hy as (f' & s' & Hf' & Hs' & Hle).
    apply cell_lt_true in Hlt as (sv & fv & -> & -> & Hlt).
    apply cell_le_true in Hle as (fv' & sv' & -> & -> & Hle).
    destruct i as [|j]; [apply shift_lookup_0 in Hf'; discriminate|].
    apply shift_lookup_S in Hf' as [Hf' _]. apply shift_lookup_S in Hs' as [Hs' _].
    exists j, fv, sv, fv', sv'. repeat split; assumption.
  - intros (j & f & s & f' & s' & -> & Hf & Hs & Hf' & Hs' & Hlt & Hle).
    exists true, true. repeat split.
    + apply zip_with_lookup_true. exists (Some f), (Some s).
      repeat split; try assumption. apply cell_lt_true. eauto.
    + apply zip_with_lookup_true. exists (Some f'), (Some s').
      split; [|split].
      * apply shift_lookup_S. split; [assumption|]. apply lookup_lt_Some in Hf. exact Hf.
      * apply shift_lookup_S. split; [assumption|]. apply lookup_lt_Some in Hs. exact Hs.
      * apply cell_le_true. eauto.
Qed.

Lemma death_cells_spec fast slow i :
  death_cells (FloatCol fast) (FloatCol slow) !! i = Some true <->
  death_cross_spec fast slow i.
Proof.
  unfold death_cells, series_and, series_lt, series_ge, death_cross_spec. simpl.
  rewrite zip_with_lookup_true. split.
  - intros (x & y & Hx & Hy & Hxy).
    apply andb_true_iff in Hxy as [-> ->].
    apply zip_with_lookup_true in Hx as (f & s & Hf & Hs & Hlt).
    apply zip_with_lookup_true in Hy as (f' & s' & Hf' & Hs' & Hle).
    apply cell_lt_true in Hlt as (fv & sv & -> & -> & Hlt).
    apply cell_le_true in Hle as (sv' & fv' & -> & -> & Hle).
    destruct i as [|j]; [apply shift_lookup_0 in Hf'; discriminate|].
    apply shift_lookup_S in Hf' as [Hf' _]. apply shift_lookup_S in Hs' as [Hs' _].
    exists j, fv, sv, fv', sv'. repeat split; assumption.
  - intros (j & f & s & f' & s' & -> & Hf & Hs & Hf' & Hs' & Hlt & Hle).
    exists true, true. repeat split.
    + apply zip_with_lookup_true. exists (Some f), (Some s).
      repeat split; try assumption. apply cell_lt_true. eauto.
    + apply zip_with_lookup_true. exists (Some f'), (Some s').
      split; [|split].
      * apply shift_lookup_S. split; [assumption|]. apply lookup_lt_Some in Hf. exact Hf.
      * apply shift_lookup_S. split; [assumption|]. apply lookup_lt_Some in Hs. exact Hs.
      * apply cell_le_true. eauto.
Qed.

Lemma cells_length (fast slow : column) :
  col_length fast = col_length slow ->
  length (golden_cells fast slow) = col_length fast /\
  length (death_cells fast slow) = col_length fast.
Proof.
  assert (Hl : forall c, length (as_float c) = col_length c).
  { intros [xs|bs]; simpl; [reflexivity|apply length_map]. }
  intros H. unfold golden_cells, death_cells, series_and, series_gt, series_lt,
    series_le, series_ge.
  rewrite !length_zip_with, !shift_length, !Hl. lia.
Qed.

(** Golden and death cells exclude each other, for columns of any kind. *)
Lemma cells_exclusive (fast slow : column) i :
  ~ (golden_cells fast slow !! i = Some true /\ death_cells fast slow !! i = Some true).
Proof.
  unfold golden_cells, death_cells, series_and, series_gt, series_lt.
  intros [Hg Hd].
  apply zip_with_lookup_true in Hg as (x & y & Hx & _ & Hxy).
  apply zip_with_lookup_true in Hd as (x' & y' & Hx' & _ & Hxy').
  apply andb_true_iff in Hxy as [-> _]. apply andb_true_iff in Hxy' as [-> _].
  apply zip_with_lookup_true in Hx as (f & s & Hf & Hs & Hlt).
  apply zip_with_lookup_true in Hx' as (f' & s' & Hf' & Hs' & Hlt').
  rewrite Hf in Hf'. rewrite Hs in Hs'. injection Hf' as <-. injection Hs' as <-.
  apply cell_lt_true in Hlt as (a & b & -> & -> & Hab).
  apply cell_lt_true in Hlt' as (b' & a' & [= <-] & [= <-] & Hba).
  exact (Qlt_irrefl _ (Qlt_trans _ _ _ Hab Hba)).
Qed.

(** ** The pattern detector, run on any state *)

Lemma getitem_eval name a :
  ohlc (data a) name = None ->
  getitem name a =
  match columns (data a) !! name with
  | Some c => (Ok c, a)
  | None => (Err (KeyError name), a)
  end.
Proof. intros H. unfold getitem. rewrite H. reflexivity. Qed.

Lemma identify_patterns_run a :
  identify_patterns a =
  match columns (data a) !! "SMA20" with
  | None => (Err (KeyError "SMA20"), a)
  | Some fast =>
      match columns (data a) !! "SMA50" with
      | None => (Err (KeyError "SMA50"), a)
      | Some slow =>
          let crossed :=
            <["Death_Cross" := BoolCol (death_cells fast slow)]>
              (<["Golden_Cross" := BoolCol (golden_cells fast slow)]>
                 (columns (data a))) in
          match columns (data a) !! "RSI" with
          | None => (Err (KeyError "RSI"), set_columns crossed a)
          | Some r =>
              (Ok tt,
               set_columns
                 (<["Overbought" := BoolCol (map (fun x => cell_lt (Some 70) x) (as_float r))]>
                    (<["Oversold" := BoolCol (map (fun x => cell_lt x (Some 30)) (as_float r))]>
                       crossed)) a)
          end
      end
  end.
Proof.
  unfold identify_patterns.
  unfold bind at 1. rewrite getitem_eval by reflexivity.
  destruct (columns (data a) !! "SMA20") as [fast|] eqn:Hf; [|reflexivity].
  unfold bind at 1. rewrite getitem_eval by reflexivity.
  destruct (columns (data a) !! "SMA50") as [slow|] eqn:Hs; [|reflexivity].
  unfold bind at 1. rewrite getitem_eval, Hf by reflexivity.
  unfold bind at 1. rewrite getitem_eval, Hs by reflexivity.
  unfold bind at 1. unfold setitem at 1.
  set (a1 := set_data _ a).
  assert (H1 : forall k, k <> "Golden_Cross" ->
                         columns (data a1) !! k = columns (data a) !! k).
  { intros k Hk. subst a1. simpl. apply lookup_insert_ne. congruence. }
  unfold bind at 1. rewrite getitem_eval, H1, Hf by (reflexivity || discriminate).
  unfold bind at 1. rewrite getitem_eval, H1, Hs by (reflexivity || discriminate).
  unfold bind at 1. rewrite getitem_eval, H1, Hf by (reflexivity || discriminate).
  unfold bind at 1. rewrite getitem_eval, H1, Hs by (reflexivity || discriminate).
  unfold bind at 1. unfold setitem at 1.
  set (a2 := set_data _ a1).
  assert (H2 : forall k, k <> "Golden_Cross" -> k <> "Death_Cross" ->
                         columns (data a2) !! k = columns (data a) !! k).
  { intros k Hk Hk'. subst a2. simpl. rewrite lookup_insert_ne by congruence.
    apply H1, Hk. }
  unfold bind at 1. rewrite getitem_eval, H2 by (reflexivity || discriminate).
  destruct (columns (data a) !! "RSI") as [r|] eqn:Hr; [|reflexivity].
  unfold bind at 1. unfold setitem at 1.
  unfold bind at 1. rewrite getitem_eval by reflexivity.
  simpl columns at 1. rewrite lookup_insert_ne by discriminate.
  rewrite H2, Hr by discriminate.
  reflexivity.
Qed.

Lemma identify_patterns_crossed a fast slow :
  columns (data a) !! "SMA20" = Some fast ->
  columns (data a) !! "SMA50" = Some slow ->
  columns (data (snd (identify_patterns a))) !! "Golden_Cross"
  = Some (BoolCol (golden_cells fast slow)) /\
  columns (data (snd (identify_patterns a))) !! "Death_Cross"
  = Some (BoolCol (death_cells fast slow)).
Proof.
  intros Hf Hs. rewrite identify_patterns_run, Hf, Hs.
  destruct (columns (data a) !! "RSI") as [r|]; simpl; split.
  - do 3 (rewrite lookup_insert_ne by discriminate). apply lookup_insert_eq.
  - do 2 (rewrite lookup_insert_ne by discriminate). apply lookup_insert_eq.
  - rewrite lookup_insert_ne by discriminate. apply lookup_insert_eq.
  - apply lookup_insert_eq.
Qed.

(** C1.  With float columns [fast] and [slow] of equal length stored as
    SMA20 and SMA50, [identify_patterns] leaves boolean columns Golden_Cross
    and Death_Cross of that length such that, at every index [i],
    Golden_Cross is true exactly when [i] has a predecessor, the four cells
    at [i] and [i - 1] are present, [fast i > slow i] and
    [fast (i-1) <= slow (i-1)]; and Death_Cross is true exactly when the
    same holds with [fast i < slow i] and [fast (i-1) >= slow (i-1)].  So
    both are false at index 0 and wherever one of the four cells is
    absent. *)
Theorem crossover_columns a fast slow :
  columns (data a) !! "SMA20" = Some (FloatCol fast) ->
  columns (data a) !! "SMA50" = Some (FloatCol slow) ->
  length fast = length slow ->
  exists g d,
    columns (data (snd (identify_patterns a))) !! "Golden_Cross" = Some (BoolCol g) /\
    columns (data (snd (identify_patterns a))) !! "Death_Cross" = Some (BoolCol d) /\
    length g = length fast /\
    length d = length fast /\
    forall i,
      (g !! i = Some true <-> golden_cross_spec fast slow i) /\
      (d !! i = Some true <-> death_cross_spec fast slow i).
Proof.
  intros Hf Hs Hlen.
  destruct (identify_patterns_crossed a _ _ Hf Hs) as [Hg Hd].
  destruct (cells_length (FloatCol fast) (FloatCol slow) Hlen) as [Lg Ld].
  exists (golden_cells (FloatCol fast) (FloatCol slow)),
         (death_cells (FloatCol fast) (FloatCol slow)).
  repeat split; try assumption.
  - apply golden_cells_spec.
  - apply golden_cells_spec.
  - apply death_cells_spec.
  - apply death_cells_spec.
Qed.

Lemma crossover_columns_witness :
  exists g d,
    columns (data (snd (identify_patterns sample_crossing))) !! "Golden_Cross"
    = Some (BoolCol g) /\
    columns (data (snd (identify_patterns sample_crossing))) !! "Death_Cross"
    = Some (BoolCol d) /\
    length g = 4%nat /\
    length d = 4%nat /\
    forall i,
      (g !! i = Some true <->
       golden_cross_spec [None; Some 5; Some 7; Some 5] [None; Some 5; Some 6; Some 6] i) /\
      (d !! i = Some true <->
       death_cross_spec [None; Some 5; Some 7; Some 5] [None; Some 5; Some 6; Some 6] i).
Proof.
  apply (crossover_columns sample_crossing
           [None; Some 5; Some 7; Some 5] [None; Some 5; Some 6; Some 6]).
  - vm_compute. reflexivity.
  - vm_compute. reflexivity.
  - reflexivity.
Defined.

(** C6.  Whenever [identify_patterns] completes, the Golden_Cross and
    Death_Cross columns it leaves are never both true at the same index. *)
Theorem crossovers_exclusive a g d :
  fst (identify_patterns a) = Ok tt ->
  columns (data (snd (identify_patterns a))) !! "Golden_Cross" = Some (BoolCol g) ->
  columns (data (snd (identify_patterns a))) !! "Death_Cross" = Some (BoolCol d) ->
  forall i, ~ (g !! i = Some true /\ d !! i = Some true).
Proof.
  intros Hok Hg Hd i.
  destruct (columns (data a) !! "SMA20") as [fast|] eqn:Hf;
    [|rewrite identify_patterns_run, Hf in Hok; discriminate].
  destruct (columns (data a) !! "SMA50") as [slow|] eqn:Hs;
    [|rewrite identify_patterns_run, Hf, Hs in Hok; discriminate].
  destruct (identify_patterns_crossed a _ _ Hf Hs) as [Hg' Hd'].
  rewrite Hg' in Hg. rewrite Hd' in Hd.
  injection Hg as <-. injection Hd as <-.
  apply cells_exclusive.
Qed.

Lemma crossovers_exclusive_witness :
  fst (identify_patterns sample_crossing) = Ok tt /\
  forall i, ~ ([false; false; true; false] !! i = Some true /\
               [false; false; false; true] !! i = Some true).
Proof.
  split; [vm_compute; reflexivity|].
  apply (crossovers_exclusive sample_crossing).
  - vm_compute. reflexivity.
  - vm_compute. reflexivity.
  - vm_compute. reflexivity.
Defined.

(** ** The price-change entry *)

Lemma Qeq_bool_true x y : x == y -> Qeq_bool x y = true.
Proof. apply Qeq_bool_iff. Qed.

Lemma Qeq_bool_false x y : ~ x == y -> Qeq_bool x y = false.
Proof.
  intros H. destruct (Qeq_bool x y) eqn:E; [|reflexivity].
  apply Qeq_bool_iff in E. contradiction.
Qed.

Lemma Qlt_bool_false x y : ~ x < y -> Qlt_bool x y = false.
Proof.
  intros H. destruct (Qlt_bool x y) eqn:E; [|reflexivity].
  apply Qlt_bool_iff in E. contradiction.
Qed.

(** The float expression of the price change on two finite closes. *)
Lemma price_change_cases (f l : Q) :
  let v := f_mul (f_div (f_sub (Finite l) (Finite f)) (Finite f)) (Finite 100) in
  (f == 0 -> l == 0 -> v = NaN) /\
  (f == 0 -> 0 < l -> v = Inf false) /\
  (f == 0 -> l < 0 -> v = Inf true) /\
  (~ f == 0 -> exists q, v = Finite q /\ q == (l - f) / f * 100).
Proof.
  simpl. repeat split.
  - intros Hf Hl. rewrite (Qeq_bool_true f 0 Hf).
    rewrite (Qeq_bool_true (l - f) 0) by (rewrite Hf, Hl; reflexivity).
    reflexivity.
  - intros Hf Hl. rewrite (Qeq_bool_true f 0 Hf).
    rewrite (Qeq_bool_false (l - f) 0) by (rewrite Hf; lra).
    unfold is_neg. rewrite (Qlt_bool_false (l - f) 0) by (rewrite Hf; lra).
    reflexivity.
  - intros Hf Hl. rewrite (Qeq_bool_true f 0 Hf).
    rewrite (Qeq_bool_false (l - f) 0) by (rewrite Hf; lra).
    unfold is_neg.
    assert (E : Qlt_bool (l - f) 0 = true) by (apply Qlt_bool_iff; rewrite Hf; lra).
    rewrite E. reflexivity.
  - intros Hf. rewrite (Qeq_bool_false f 0 Hf).
    eexists. split; reflexivity.
Qed.

(** C2, as the code has it.  On an annotated, non-empty series
    [generate_report] returns a report and raises nothing, whatever the first
    close is.  When the first close is zero the price-change entry is NaN if
    the last close is zero too, plus infinity if the last close is positive
    and minus infinity if it is negative; when the first close is not zero it
    is [(last_close - first_close) / first_close * 100]. *)
Theorem price_change_entry a :
  annotated a ->
  exists r first_close last_close,
    generate_report a = (Ok r, a) /\
    head (closes (data a)) = Some first_close /\
    last (closes (data a)) = Some last_close /\
    (first_close == 0 -> last_close == 0 -> r_price_change r = NaN) /\
    (first_close == 0 -> 0 < last_close -> r_price_change r = Inf false) /\
    (first_close == 0 -> last_close < 0 -> r_price_change r = Inf true) /\
    (~ first_close == 0 ->
     exists q, r_price_change r = Finite q /\
               q == (last_close - first_close) / first_close * 100).
Proof.
  intros Ha.
  destruct (generate_report_returns a Ha) as (r & Hr & Hpc).
  destruct Ha as (Hne & _).
  destruct (price_change_pct_ok a Hne) as (f & l & Hf & Hl & Hv).
  rewrite Hv in Hpc. injection Hpc as Hpc.
  exists r, f, l. rewrite <- Hpc.
  split; [exact Hr|]. split; [exact Hf|]. split; [exact Hl|].
  apply price_change_cases.
Qed.

Lemma price_change_entry_witness :
  exists r first_close last_close,
    generate_report sample_annotated = (Ok r, sample_annotated) /\
    head (closes (data sample_annotated)) = Some first_close /\
    last (closes (data sample_annotated)) = Some last_close /\
    (first_close == 0 -> last_close == 0 -> r_price_change r = NaN) /\
    (first_close == 0 -> 0 < last_close -> r_price_change r = Inf false) /\
    (first_close == 0 -> last_close < 0 -> r_price_change r = Inf true) /\
    (~ first_close == 0 ->
     exists q, r_price_change r = Finite q /\
               q == (last_close - first_close) / first_close * 100).
Proof.
  apply (price_change_entry sample_annotated).
  unfold annotated, is_signal.
  split; [discriminate|].
  split; [unfold aligned; refine (bool_decide_unpack _ _); vm_compute; exact I|].
  repeat split; eexists; vm_compute; reflexivity.
Defined.

(** C2, counterexample.  With first close 0 and last close 5 the report is
    returned, not an exception, and its price-change entry is plus
    infinity. *)
Lemma price_change_zero_first_close :
  head (closes (data sample_zero_first)) = Some 0 /\
  fst (price_change_pct sample_zero_first) = Ok (Inf false) /\
  (exists r, fst (generate_report sample_zero_first) = Ok r /\
             r_price_change r = Inf false) /\
  ~ (exists e, fst (generate_report sample_zero_first) = Err e).
Proof.
  split; [reflexivity|].
  split; [vm_compute; reflexivity|].
  split.
  - eexists. split; vm_compute; reflexivity.
  - intros [e He]. vm_compute in He. discriminate.
Qed.

(** ** Warm-up of the rolling and exponential windows *)

Lemma window_length w i (xs : list Q) :
  (i < length xs)%nat -> length (window w i xs) = Nat.min w (S i).
Proof.
  intros H. unfold window. rewrite length_drop, length_take. lia.
Qed.

Lemma present_from_shape col : forall k,
  present_from k col ->
  exists vals, length vals = (length col - k)%nat /\
               col = (replicate (Nat.min k (length col)) None ++ map Some vals)%list.
Proof.
  induction col as [|c col IH]; intros k Hp.
  - exists []. rewrite Nat.min_0_r. split; reflexivity.
  - destruct k as [|k].
    + destruct (IH 0%nat) as (vals & Hlen & Hcol).
      { intros i c' Hi. split; [lia|]. intros _. apply (Hp (S i) c' Hi). lia. }
      destruct (proj2 (Hp 0%nat c eq_refl) (Nat.le_refl 0)) as [v ->].
      exists (v :: vals). simpl in *. split; [lia|]. f_equal. exact Hcol.
    + destruct (IH k) as (vals & Hlen & Hcol).
      { intros i c' Hi. rewrite (Hp (S i) c' Hi). lia. }
      exists vals. simpl. split; [exact Hlen|].
      destruct c as [v|].
      * destruct (Hp 0%nat (Some v) eq_refl) as [H _].
        specialize (H (ex_intro _ v eq_refl)). lia.
      * f_equal. exact Hcol.
Qed.

Lemma present_from_warmed_up w col :
  (1 <= w)%nat -> present_from (w - 1) col -> warmed_up w (length col) col.
Proof.
  intros Hw Hp. destruct (present_from_shape col _ Hp) as (vals & Hlen & Hcol).
  split; [reflexivity|]. split.
  - intros Hlt. rewrite Hcol at 1.
    replace (Nat.min (w - 1) (length col)) with (length col) by lia.
    destruct vals; [apply app_nil_r|simpl in Hlen; lia].
  - intros Hle. exists vals. split; [lia|].
    rewrite Hcol at 1. replace (Nat.min (w - 1) (length col)) with (w - 1)%nat by lia.
    reflexivity.
Qed.

Lemma rolling_mean_length w minp xs : length (rolling_mean w minp xs) = length xs.
Proof. unfold rolling_mean. apply length_imap. Qed.

Lemma rolling_std_length sqrt_q w minp xs :
  length (rolling_std sqrt_q w minp xs) = length xs.
Proof. unfold rolling_std. apply length_imap. Qed.

Lemma warm_test w i (xs : list Q) :
  (1 <= w)%nat -> (i < length xs)%nat ->
  (w <=? length (window w i xs))%nat && (0 <? length (window w i xs))%nat
  = (w <=? S i)%nat.
Proof.
  intros Hw Hi. rewrite window_length by assumption.
  destruct (Nat.leb_spec w (S i)).
  - rewrite Nat.min_l by lia.
    rewrite (proj2 (Nat.leb_le w w)) by lia.
    rewrite (proj2 (Nat.ltb_lt 0 w)) by lia. reflexivity.
  - rewrite Nat.min_r by lia.
    rewrite (proj2 (Nat.leb_gt w (S i))) by lia. reflexivity.
Qed.

Lemma is_Some_warm {A} w i (y : A) :
  (1 <= w)%nat ->
  is_Some (if (w <=? S i)%nat then Some y else None) <-> (w - 1 <= i)%nat.
Proof.
  intros Hw. destruct (Nat.leb_spec w (S i)); split; intros H'.
  - lia.
  - eauto.
  - destruct H' as [? ?]; discriminate.
  - lia.
Qed.

Lemma rolling_mean_present w xs :
  (1 <= w)%nat -> present_from (w - 1) (rolling_mean w w xs).
Proof.
  intros Hw i c Hc. unfold rolling_mean in Hc.
  rewrite list_lookup_imap in Hc.
  destruct (xs !! i) as [x|] eqn:Hx; [|discriminate].
  apply lookup_lt_Some in Hx. simpl in Hc. injection Hc as <-.
  rewrite warm_test by assumption. apply is_Some_warm, Hw.
Qed.

Lemma rolling_std_present sqrt_q w xs :
  (1 <= w)%nat -> present_from (w - 1) (rolling_std sqrt_q w w xs).
Proof.
  intros Hw i c Hc. unfold rolling_std in Hc.
  rewrite list_lookup_imap in Hc.
  destruct (xs !! i) as [x|] eqn:Hx; [|discriminate].
  apply lookup_lt_Some in Hx. simpl in Hc. injection Hc as <-.
  rewrite warm_test by assumption. apply is_Some_warm, Hw.
Qed.

Lemma ewm_from_length alpha xs : forall y, length (ewm_from alpha y xs) = length xs.
Proof. induction xs as [|x xs IH]; intros y; simpl; [reflexivity|]. rewrite IH. reflexivity. Qed.

Lemma ewm_values_length alpha xs : length (ewm_values alpha xs) = length xs.
Proof. destruct xs; simpl; [reflexivity|]. rewrite ewm_from_length. reflexivity. Qed.

Lemma ewm_mean_length alpha minp xs : length (ewm_mean alpha minp xs) = length xs.
Proof. unfold ewm_mean. rewrite length_imap. apply ewm_values_length. Qed.

Lemma ewm_mean_lookup alpha minp xs i c :
  ewm_mean alpha minp xs !! i = Some c <->
  exists y, ewm_values alpha xs !! i = Some y /\
            c = if (minp <=? S i)%nat then Some y else None.
Proof.
  unfold ewm_mean. rewrite list_lookup_imap.
  destruct (ewm_values alpha xs !! i) as [y|]; simpl; split.
  - intros [= <-]. eauto.
  - intros (y' & [= <-] & ->). reflexivity.
  - discriminate.
  - intros (y' & Hy & _). discriminate.
Qed.

Lemma ewm_mean_present alpha w xs :
  (1 <= w)%nat -> present_from (w - 1) (ewm_mean alpha w xs).
Proof.
  intros Hw i c Hc. apply ewm_mean_lookup in Hc as (y & _ & ->).
  apply is_Some_warm, Hw.
Qed.

(** A band is present exactly where the average and the deviation are. *)
Lemma band_present f dev k (mavg mstd : list (option Q)) :
  present_from k mavg -> present_from k mstd ->
  present_from k (zip_with (cell_op f) mavg (map (option_map (Qmult dev)) mstd)).
Proof.
  intros Hm Hs i c Hc. rewrite lookup_zip_with in Hc.
  destruct (mavg !! i) as [m|] eqn:Em; [|discriminate]. simpl in Hc.
  rewrite list_lookup_fmap in Hc.
  destruct (mstd !! i) as [s|] eqn:Es; [|discriminate]. simpl in Hc.
  injection Hc as <-.
  rewrite <- (Hm i m Em). pose proof (Hs i s Es) as Hs'. rewrite <- (Hm i m Em) in Hs'.
  destruct m as [m|], s as [s|]; simpl; split; intros H';
    solve [ eauto
          | destruct H' as [? ?]; discriminate
          | apply Hs' in H'; destruct H' as [? ?]; discriminate
          | apply Hs'; eauto ].
Qed.

Lemma band_length f dev (mavg mstd : list (option Q)) :
  length mavg = length mstd ->
  length (zip_with (cell_op f) mavg (map (option_map (Qmult dev)) mstd)) = length mavg.
Proof. intros H. rewrite length_zip_with, length_map. lia. Qed.

Lemma indicators_warm_up sqrt_q close w dev :
  (1 <= w)%nat ->
  warmed_up w (length close) (sma_indicator close w) /\
  (exists col, ema_indicator close w = Ok col /\ warmed_up w (length close) col) /\
  warmed_up w (length close) (bollinger_mavg close w) /\
  warmed_up w (length close) (bollinger_hband sqrt_q close w dev) /\
  warmed_up w (length close) (bollinger_lband sqrt_q close w dev).
Proof.
  intros Hw.
  assert (Hm : warmed_up w (length close) (rolling_mean w w close)).
  { rewrite <- (rolling_mean_length w w close) at 1.
    apply present_from_warmed_up; [assumption|]. apply rolling_mean_present, Hw. }
  split; [exact Hm|]. split; [|split; [exact Hm|]].
  - exists (ewm_mean (2 / (Qnat w + 1)) w close). split.
    + unfold ema_indicator. rewrite (proj2 (Nat.ltb_ge w 1)) by lia. reflexivity.
    + rewrite <- (ewm_mean_length (2 / (Qnat w + 1)) w close) at 1.
      apply present_from_warmed_up; [assumption|]. apply ewm_mean_present, Hw.
  - assert (El : length (bollinger_mavg close w) = length (bollinger_mstd sqrt_q close w)).
    { unfold bollinger_mavg, bollinger_mstd.
      rewrite rolling_mean_length, rolling_std_length. reflexivity. }
    assert (Ll : length (bollinger_mavg close w) = length close)
      by apply rolling_mean_length.
    split.
    + unfold bollinger_hband. rewrite <- Ll at 1.
      rewrite <- (band_length Qplus dev _ _ El) at 1.
      apply present_from_warmed_up; [assumption|].
      apply band_present; [apply rolling_mean_present|apply rolling_std_present]; exact Hw.
    + unfold bollinger_lband. rewrite <- Ll at 1.
      rewrite <- (band_length Qminus dev _ _ El) at 1.
      apply present_from_warmed_up; [assumption|].
      apply band_present; [apply rolling_mean_present|apply rolling_std_present]; exact Hw.
Qed.

(** ** The indicator stage, run on any state *)

Lemma add_indicators_run sqrt_q a :
  let close := closes (data a) in
  add_indicators sqrt_q a =
  (Ok tt,
   set_columns
     (<["BB_middle" := FloatCol (bollinger_mavg close 20)]>
      (<["BB_lower" := FloatCol (bollinger_lband sqrt_q close 20 2)]>
       (<["BB_upper" := FloatCol (bollinger_hband sqrt_q close 20 2)]>
        (<["RSI" := FloatCol (zip_with rsi_cell (rsi_emaup close 14) (rsi_emadn close 14))]>
         (<["EMA20" := FloatCol (ewm_mean (2 / (Qnat 20 + 1)) 20 close)]>
          (<["SMA50" := FloatCol (sma_indicator close 50)]>
           (<["SMA20" := FloatCol (sma_indicator close 20)]>
            (columns (data a))))))))) a).
Proof. reflexivity. Qed.

Lemma add_indicators_columns sqrt_q a :
  let close := closes (data a) in
  let cols := columns (data (snd (add_indicators sqrt_q a))) in
  fst (add_indicators sqrt_q a) = Ok tt /\
  bars (data (snd (add_indicators sqrt_q a))) = bars (data a) /\
  cols !! "SMA20" = Some (FloatCol (sma_indicator close 20)) /\
  cols !! "SMA50" = Some (FloatCol (sma_indicator close 50)) /\
  (exists col, ema_indicator close 20 = Ok col /\ cols !! "EMA20" = Some (FloatCol col)) /\
  (exists col, rsi close 14 = Ok col /\ cols !! "RSI" = Some (FloatCol col)) /\
  cols !! "BB_upper" = Some (FloatCol (bollinger_hband sqrt_q close 20 2)) /\
  cols !! "BB_lower" = Some (FloatCol (bollinger_lband sqrt_q close 20 2)) /\
  cols !! "BB_middle" = Some (FloatCol (bollinger_mavg close 20)).
Proof.
  intros close cols. subst cols. rewrite add_indicators_run. simpl.
  split; [reflexivity|]. split; [reflexivity|].
  repeat split.
  - do 6 (rewrite lookup_insert_ne by discriminate). apply lookup_insert_eq.
  - do 5 (rewrite lookup_insert_ne by discriminate). apply lookup_insert_eq.
  - eexists. split; [reflexivity|].
    do 4 (rewrite lookup_insert_ne by discriminate). apply lookup_insert_eq.
  - eexists. split; [reflexivity|].
    do 3 (rewrite lookup_insert_ne by discriminate). apply lookup_insert_eq.
  - do 2 (rewrite lookup_insert_ne by discriminate). apply lookup_insert_eq.
  - rewrite lookup_insert_ne by discriminate. apply lookup_insert_eq.
  - apply lookup_insert_eq.
Qed.

(** C5.  For a close series of length [L] and a window [w >= 1], the SMA,
    the EMA and the three Bollinger columns have length [L]; they are
    all absent when [L < w], and otherwise consist of [w - 1] absent cells
    followed by [L - w + 1] present ones.  These are the columns
    [add_indicators] stores, with windows 20 (SMA20, EMA20, the bands) and
    50 (SMA50). *)
Theorem warm_up_columns sqrt_q :
  (forall close w dev,
      (1 <= w)%nat ->
      warmed_up w (length close) (sma_indicator close w) /\
      (exists col, ema_indicator close w = Ok col /\ warmed_up w (length close) col) /\
      warmed_up w (length close) (bollinger_mavg close w) /\
      warmed_up w (length close) (bollinger_hband sqrt_q close w dev) /\
      warmed_up w (length close) (bollinger_lband sqrt_q close w dev)) /\
  (forall a,
      let a' := snd (add_indicators sqrt_q a) in
      fst (add_indicators sqrt_q a) = Ok tt /\
      bars (data a') = bars (data a) /\
      warm_column a' "SMA20" 20 /\
      warm_column a' "SMA50" 50 /\
      warm_column a' "EMA20" 20 /\
      warm_column a' "BB_upper" 20 /\
      warm_column a' "BB_lower" 20 /\
      warm_column a' "BB_middle" 20).
Proof.
  split.
  - intros close w dev Hw. apply indicators_warm_up, Hw.
  - intros a a'.
    destruct (add_indicators_columns sqrt_q a)
      as (Hok & Hbars & H20 & H50 & (e & He & HE) & _ & Hu & Hl & Hm).
    fold a' in Hbars, H20, H50, HE, Hu, Hl, Hm.
    assert (HL : length (bars (data a')) = length (closes (data a)))
      by (rewrite Hbars, closes_length; reflexivity).
    destruct (indicators_warm_up sqrt_q (closes (data a)) 20 2)
      as (W20 & (e' & He' & We) & Wm & Wu & Wl); [lia|].
    destruct (indicators_warm_up sqrt_q (closes (data a)) 50 2)
      as (W50 & _); [lia|].
    rewrite He in He'. injection He' as <-.
    unfold warm_column. rewrite HL.
    repeat split; try assumption; eexists; split; eassumption.
Qed.

Lemma warm_up_columns_witness :
  warmed_up 2 3 (sma_indicator [1; 2; 4] 2) /\
  (exists col, ema_indicator [1; 2; 4] 2 = Ok col /\ warmed_up 2 3 col) /\
  warmed_up 2 3 (bollinger_mavg [1; 2; 4] 2) /\
  warmed_up 2 3 (bollinger_hband (fun q => q) [1; 2; 4] 2 2) /\
  warmed_up 2 3 (bollinger_lband (fun q => q) [1; 2; 4] 2 2).
Proof.
  apply (proj1 (warm_up_columns (fun q => q)) [1; 2; 4] 2%nat 2). lia.
Defined.

(** C7.  On eleven closes of 10 followed by a close of 12, the SMA of
    window 10 is absent at indices 0 to 8 and is 10, 10 and 102/10 at
    indices 9, 10 and 11 (values in lowest terms). *)
Theorem sma_flat_then_up :
  length sample_flat_then_up = 12%nat /\
  map (option_map Qred) (sma_indicator sample_flat_then_up 10)
  = (replicate 9 None ++ [Some 10; Some 10; Some (Qred (102 # 10))])%list.
Proof. split; vm_compute; reflexivity. Qed.

(** ** The exponential recursion *)

Lemma ewm_from_step alpha : forall rest y0 i y,
  ewm_from alpha y0 rest !! i = Some y ->
  exists c yprev,
    rest !! i = Some c /\
    (y0 :: ewm_from alpha y0 rest) !! i = Some yprev /\
    y = (1 - alpha) * yprev + alpha * c.
Proof.
  induction rest as [|x rest IH]; intros y0 i y H; [discriminate|].
  destruct i as [|i]; simpl in H.
  - injection H as <-. exists x, y0. repeat split.
  - destruct (IH _ _ _ H) as (c & yprev & Hc & Hp & Hy).
    exists c, yprev. repeat split; assumption.
Qed.

Lemma ewm_values_head alpha xs : ewm_values alpha xs !! 0%nat = xs !! 0%nat.
Proof. destruct xs; reflexivity. Qed.

Lemma ewm_values_step alpha xs i y :
  ewm_values alpha xs !! S i = Some y ->
  exists c yprev,
    xs !! S i = Some c /\
    ewm_values alpha xs !! i = Some yprev /\
    y = (1 - alpha) * yprev + alpha * c.
Proof.
  destruct xs as [|x0 rest]; [discriminate|]. simpl. intros H.
  apply ewm_from_step in H. exact H.
Qed.

Lemma nth_of_lookup (xs : list Q) i c : xs !! i = Some c -> nth i xs 0 = c.
Proof.
  revert i. induction xs as [|x xs IH]; intros [|i] H; try discriminate.
  - injection H as <-. reflexivity.
  - simpl. apply IH. exact H.
Qed.

Lemma ewm_values_recursion alpha xs : forall i y,
  ewm_values alpha xs !! i = Some y -> y == ema_recursion alpha xs i.
Proof.
  induction i as [|i IH]; intros y H.
  - rewrite ewm_values_head in H. simpl. rewrite (nth_of_lookup _ _ _ H). reflexivity.
  - apply ewm_values_step in H as (c & yprev & Hc & Hp & ->).
    cbn [ema_recursion]. rewrite (nth_of_lookup _ _ _ Hc), <- (IH _ Hp). ring.
Qed.

Lemma ewm_values_nonneg alpha xs :
  0 <= alpha -> alpha <= 1 -> Forall (fun x => 0 <= x) xs ->
  forall i y, ewm_values alpha xs !! i = Some y -> 0 <= y.
Proof.
  intros Ha0 Ha1 Hxs. rewrite Forall_lookup in Hxs.
  induction i as [|i IH]; intros y H.
  - rewrite ewm_values_head in H. exact (Hxs _ _ H).
  - apply ewm_values_step in H as (c & yprev & Hc & Hp & ->).
    specialize (IH _ Hp). specialize (Hxs _ _ Hc). nra.
Qed.

Lemma ema_indicator_cells close w :
  (1 <= w)%nat ->
  exists col,
    ema_indicator close w = Ok col /\
    length col = length close /\
    (forall i, (i < w - 1)%nat -> (i < length close)%nat -> col !! i = Some None) /\
    (forall i, (w - 1 <= i)%nat -> (i < length close)%nat ->
       exists e, col !! i = Some (Some e) /\
                 ewm_values (2 / (Qnat w + 1)) close !! i = Some e).
Proof.
  intros Hw. exists (ewm_mean (2 / (Qnat w + 1)) w close).
  split; [unfold ema_indicator; rewrite (proj2 (Nat.ltb_ge w 1)) by lia; reflexivity|].
  split; [apply ewm_mean_length|].
  assert (Hv : forall i, (i < length close)%nat ->
                         exists y, ewm_values (2 / (Qnat w + 1)) close !! i = Some y).
  { intros i Hi. apply lookup_lt_is_Some. rewrite ewm_values_length. exact Hi. }
  split.
  - intros i Hi HL. destruct (Hv i HL) as (y & Hy).
    apply ewm_mean_lookup. exists y. split; [exact Hy|].
    rewrite (proj2 (Nat.leb_gt w (S i))) by lia. reflexivity.
  - intros i Hi HL. destruct (Hv i HL) as (y & Hy).
    exists y. split; [|exact Hy].
    apply ewm_mean_lookup. exists y. split; [exact Hy|].
    rewrite (proj2 (Nat.leb_le w (S i))) by lia. reflexivity.
Qed.

(** C4, as the code has it.  For a window [w >= 1] the EMA column has the
    length of the series; it is absent before index [w - 1]; from index
    [w - 1] on it carries the recursion started at the first close,
    [ema 0 = close 0], [ema j = alpha * close j + (1 - alpha) * ema (j-1)]
    with [alpha = 2 / (w + 1)]; and at every index [i >= w] it equals
    [alpha * close i + (1 - alpha) * ema (i-1)] of the column itself.  The
    column EMA20 that [add_indicators] stores is this one for [w = 20]. *)
Theorem ema_column :
  (forall close w,
      (1 <= w)%nat ->
      let alpha := 2 / (Qnat w + 1) in
      exists col,
        ema_indicator close w = Ok col /\
        length col = length close /\
        (forall i, (i < w - 1)%nat -> (i < length close)%nat -> col !! i = Some None) /\
        (forall i, (w - 1 <= i)%nat -> (i < length close)%nat ->
           exists e, col !! i = Some (Some e) /\ e == ema_recursion alpha close i) /\
        (forall i, (w <= i)%nat -> (i < length close)%nat ->
           exists e e' c,
             col !! i = Some (Some e) /\
             col !! (i - 1)%nat = Some (Some e') /\
             close !! i = Some c /\
             e == alpha * c + (1 - alpha) * e')) /\
  (forall sqrt_q a,
      exists col,
        ema_indicator (closes (data a)) 20 = Ok col /\
        columns (data (snd (add_indicators sqrt_q a))) !! "EMA20" = Some (FloatCol col)).
Proof.
  split.
  - intros close w Hw alpha.
    destruct (ema_indicator_cells close w Hw) as (col & Hcol & Hlen & Habs & Hpres).
    exists col. split; [exact Hcol|]. split; [exact Hlen|]. split; [exact Habs|]. split.
    + intros i Hi HL. destruct (Hpres i Hi HL) as (e & He & Hv).
      exists e. split; [exact He|]. apply ewm_values_recursion, Hv.
    + intros i Hi HL. destruct i as [|i]; [lia|].
      destruct (Hpres (S i)) as (e & He & Hv); [lia|exact HL|].
      destruct (Hpres i) as (e' & He' & Hv'); [lia|lia|].
      apply ewm_values_step in Hv as (c & yprev & Hc & Hp & ->).
      fold alpha in Hp, Hv'. rewrite Hv' in Hp. injection Hp as <-.
      exists ((1 - alpha) * e' + alpha * c), e', c.
      replace (S i - 1)%nat with i by lia.
      split; [exact He|]. split; [exact He'|]. split; [exact Hc|]. ring.
  - intros sqrt_q a.
    destruct (add_indicators_columns sqrt_q a) as (_ & _ & _ & _ & He & _).
    exact He.
Qed.

Lemma ema_column_witness :
  exists col,
    ema_indicator [3; 6; 9] 2 = Ok col /\
    length col = 3%nat /\
    (forall i, (i < 2 - 1)%nat -> (i < 3)%nat -> col !! i = Some None) /\
    (forall i, (2 - 1 <= i)%nat -> (i < 3)%nat ->
       exists e, col !! i = Some (Some e) /\
                 e == ema_recursion (2 / (Qnat 2 + 1)) [3; 6; 9] i) /\
    (forall i, (2 <= i)%nat -> (i < 3)%nat ->
       exists e e' c,
         col !! i = Some (Some e) /\
         col !! (i - 1)%nat = Some (Some e') /\
         [3; 6; 9] !! i = Some c /\
         e == (2 / (Qnat 2 + 1)) * c + (1 - 2 / (Qnat 2 + 1)) * e').
Proof.
  apply (proj1 ema_column [3; 6; 9] 2%nat). lia.
Defined.

(** C4, counterexample.  On nineteen closes of 0 followed by 21 the EMA of
    window 20, which is the column EMA20 of the pipeline, has its first
    value at index 19, and that value is 2 while the mean of the first 20
    closes is 21/20. *)
Lemma ema_seed_differs_from_mean :
  exists col v,
    ema_indicator sample_late_jump 20 = Ok col /\
    columns (data (snd (add_indicators (fun q => q)
                          (analyzer_of sample_late_jump ∅)))) !! "EMA20"
    = Some (FloatCol col) /\
    (forall i, (i < 19)%nat -> col !! i = Some None) /\
    col !! 19%nat = Some (Some v) /\
    v == 2 /\
    mean_first 20 sample_late_jump == 21 # 20 /\
    ~ v == mean_first 20 sample_late_jump.
Proof.
  eexists. eexists.
  split; [vm_compute; reflexivity|].
  split; [vm_compute; reflexivity|].
  split.
  { intros i Hi. do 19 (destruct i as [|i]; [reflexivity|]). lia. }
  split; [reflexivity|].
  split; [vm_compute; reflexivity|].
  split; [vm_compute; reflexivity|].
  vm_compute. discriminate.
Qed.

(** ** The relative strength index *)

Lemma diff_length xs : length (diff xs) = length xs.
Proof.
  destruct xs as [|x rest]; [reflexivity|].
  unfold diff. cbn [length]. rewrite length_zip_with. cbn [length]. lia.
Qed.

Lemma up_direction_nonneg d : Forall (fun x => 0 <= x) (up_direction d).
Proof.
  unfold up_direction. apply Forall_map, Forall_forall. intros [x|] _; [|lra].
  destruct (Qlt_bool 0 x) eqn:E; [|lra].
  apply Qlt_bool_iff in E. lra.
Qed.

Lemma down_direction_nonneg d : Forall (fun x => 0 <= x) (down_direction d).
Proof.
  unfold down_direction. apply Forall_map, Forall_forall. intros [x|] _; [|lra].
  destruct (Qlt_bool x 0) eqn:E; [|lra].
  apply Qlt_bool_iff in E. lra.
Qed.

Lemma Qnat_pos w : (1 <= w)%nat -> 1 <= Qnat w.
Proof.
  intros H. unfold Qnat, Qle. simpl. lia.
Qed.

Lemma wilder_alpha w : (1 <= w)%nat -> 0 <= 1 / Qnat w /\ 1 / Qnat w <= 1.
Proof.
  intros H. pose proof (Qnat_pos w H) as Hq. split.
  - apply Qle_shift_div_l; lra.
  - apply Qle_shift_div_r; lra.
Qed.

Lemma rsi_smoothed_length close w :
  length (rsi_emaup close w) = length close /\
  length (rsi_emadn close w) = length close.
Proof.
  unfold rsi_emaup, rsi_emadn, up_direction, down_direction.
  rewrite !ewm_mean_length, !length_map, diff_length. split; reflexivity.
Qed.

Lemma rsi_smoothed_nonneg close w i :
  (1 <= w)%nat ->
  (forall u, rsi_emaup close w !! i = Some (Some u) -> 0 <= u) /\
  (forall d, rsi_emadn close w !! i = Some (Some d) -> 0 <= d).
Proof.
  intros Hw. destruct (wilder_alpha w Hw) as [Ha0 Ha1].
  split; intros v Hv; apply ewm_mean_lookup in Hv as (y & Hy & Hc);
    destruct (w <=? S i)%nat; try discriminate; injection Hc as ->.
  - exact (ewm_values_nonneg _ _ Ha0 Ha1 (up_direction_nonneg _) _ _ Hy).
  - exact (ewm_values_nonneg _ _ Ha0 Ha1 (down_direction_nonneg _) _ _ Hy).
Qed.

Lemma rsi_cell_range u d v :
  (forall x, u = Some x -> 0 <= x) ->
  (forall x, d = Some x -> 0 <= x) ->
  rsi_cell u d = Some v -> 0 <= v /\ v <= 100.
Proof.
  intros Hu Hd. unfold rsi_cell.
  destruct d as [dv|]; [|discriminate].
  destruct (Qeq_bool dv 0) eqn:E.
  - intros [= <-]. lra.
  - destruct u as [uv|]; [|discriminate]. intros [= <-].
    specialize (Hu uv eq_refl). specialize (Hd dv eq_refl).
    assert (Hne : ~ dv == 0).
    { intros H. apply Qeq_bool_iff in H. congruence. }
    assert (Hpos : 0 < dv) by lra.
    assert (Hrs : 0 <= uv / dv) by (apply Qle_shift_div_l; lra).
    assert (H1 : 0 <= 100 / (1 + uv / dv)) by (apply Qle_shift_div_l; lra).
    assert (H2 : 100 / (1 + uv / dv) <= 100) by (apply Qle_shift_div_r; lra).
    lra.
Qed.

Lemma rsi_cells close w :
  (1 <= w)%nat ->
  exists col,
    rsi close w = Ok col /\
    (forall i v, col !! i = Some (Some v) -> 0 <= v /\ v <= 100) /\
    (forall i d, rsi_emadn close w !! i = Some (Some d) -> d == 0 ->
                 col !! i = Some (Some 100)).
Proof.
  intros Hw. exists (zip_with rsi_cell (rsi_emaup close w) (rsi_emadn close w)).
  split; [unfold rsi; rewrite (proj2 (Nat.eqb_neq w 0)) by lia; reflexivity|].
  split.
  - intros i v Hv. rewrite lookup_zip_with in Hv.
    destruct (rsi_emaup close w !! i) as [u|] eqn:Eu; [|discriminate].
    destruct (rsi_emadn close w !! i) as [d|] eqn:Ed; [|discriminate].
    simpl in Hv. injection Hv as Hv.
    destruct (rsi_smoothed_nonneg close w i Hw) as [Hu Hd].
    apply (rsi_cell_range u d v); [| |exact Hv].
    + intros x ->. apply Hu. exact Eu.
    + intros x ->. apply Hd. exact Ed.
  - intros i d Hd H0. rewrite lookup_zip_with, Hd.
    destruct (rsi_smoothed_length close w) as [Lu Ld].
    destruct (lookup_lt_is_Some_2 (rsi_emaup close w) i) as [u Hu].
    { rewrite Lu, <- Ld. apply lookup_lt_Some in Hd. exact Hd. }
    rewrite Hu. simpl. unfold rsi_cell.
    rewrite (Qeq_bool_true d 0 H0). reflexivity.
Qed.

(** C3.  For a window [w >= 1] every present value of the RSI column lies
    between 0 and 100, and wherever the smoothed average loss is present
    and zero the RSI is exactly 100.  The column RSI that [add_indicators]
    stores is this one for [w = 14]. *)
Theorem rsi_range :
  (forall close w,
      (1 <= w)%nat ->
      exists col,
        rsi close w = Ok col /\
        (forall i v, col !! i = Some (Some v) -> 0 <= v /\ v <= 100) /\
        (forall i d, rsi_emadn close w !! i = Some (Some d) -> d == 0 ->
                     col !! i = Some (Some 100))) /\
  (forall sqrt_q a,
      exists col,
        rsi (closes (data a)) 14 = Ok col /\
        columns (data (snd (add_indicators sqrt_q a))) !! "RSI" = Some (FloatCol col)).
Proof.
  split.
  - intros close w Hw. apply rsi_cells, Hw.
  - intros sqrt_q a.
    destruct (add_indicators_columns sqrt_q a) as (_ & _ & _ & _ & _ & Hr & _).
    exact Hr.
Qed.

Lemma rsi_range_witness :
  exists col,
    rsi [5; 6; 4; 7] 2 = Ok col /\
    (forall i v, col !! i = Some (Some v) -> 0 <= v /\ v <= 100) /\
    (forall i d, rsi_emadn [5; 6; 4; 7] 2 !! i = Some (Some d) -> d == 0 ->
                 col !! i = Some (Some 100)).
Proof.
  apply (proj1 rsi_range [5; 6; 4; 7] 2%nat). lia.
Defined.

(** ** Worked examples *)

Example rsi_rising_closes :
  rsi [1; 2; 3; 4] 2 = Ok [None; Some 100; Some 100; Some 100].
Proof. reflexivity. Qed.

Example rsi_mixed_closes :
  match rsi [5; 6; 4; 7] 2 with
  | Ok col => map (option_map Qred) col
  | Err _ => []
  end = [None; Some 100; Some 20; Some (1300 # 17)].
Proof. vm_compute. reflexivity. Qed.

Example ema_three_closes :
  match ema_indicator [3; 6; 9] 2 with
  | Ok col => map (option_map Qred) col
  | Err _ => []
  end = [None; Some 5; Some (23 # 3)].
Proof. vm_compute. reflexivity. Qed.

Example ema_rejects_empty_span :
  ema_indicator [3; 6; 9] 0 = Err (ValueError "span must satisfy: span >= 1").
Proof. reflexivity. Qed.

Example report_of_sample :
  option_map r_golden_crosses
    (match fst (generate_report sample_annotated) with
     | Ok r => Some r
     | Err _ => None
     end) = Some 1%nat.
Proof. vm_compute. reflexivity. Qed.

(** * Further properties of the stages *)

(** ** [add_indicators] *)

(** X1.  [add_indicators] never raises; it keeps the symbol, the dates and
    the bars, and every column whose name is not one of its seven. *)
Theorem add_indicators_frame sqrt_q a name :
  name ∉ indicator_names ->
  fst (add_indicators sqrt_q a) = Ok tt /\
  symbol (snd (add_indicators sqrt_q a)) = symbol a /\
  start_date (snd (add_indicators sqrt_q a)) = start_date a /\
  end_date (snd (add_indicators sqrt_q a)) = end_date a /\
  bars (data (snd (add_indicators sqrt_q a))) = bars (data a) /\
  columns (data (snd (add_indicators sqrt_q a))) !! name = columns (data a) !! name.
Proof.
  intros Hn. rewrite add_indicators_run. simpl.
  repeat split.
  assert (Hne : forall k, k ∈ indicator_names -> k <> name).
  { intros k Hk ->. contradiction. }
  unfold indicator_names in Hne.
  repeat (rewrite lookup_insert_ne by (apply Hne; set_solver)).
  reflexivity.
Qed.

Lemma add_indicators_frame_witness :
  fst (add_indicators (fun q => q) sample_annotated) = Ok tt /\
  symbol (snd (add_indicators (fun q => q) sample_annotated)) = symbol sample_annotated /\
  start_date (snd (add_indicators (fun q => q) sample_annotated))
  = start_date sample_annotated /\
  end_date (snd (add_indicators (fun q => q) sample_annotated))
  = end_date sample_annotated /\
  bars (data (snd (add_indicators (fun q => q) sample_annotated)))
  = bars (data sample_annotated) /\
  columns (data (snd (add_indicators (fun q => q) sample_annotated))) !! "Golden_Cross"
  = columns (data sample_annotated) !! "Golden_Cross".
Proof.
  apply (add_indicators_frame (fun q => q) sample_annotated "Golden_Cross").
  unfold indicator_names. intros H.
  repeat (apply elem_of_cons in H as [H|H]; [discriminate|]).
  apply elem_of_nil in H. exact H.
Defined.

Ltac lookup_inserts :=
  repeat first [ rewrite lookup_insert_eq
               | rewrite lookup_insert_ne by (discriminate || assumption) ];
  reflexivity.

Lemma closes_after_add_indicators sqrt_q a :
  closes (data (snd (add_indicators sqrt_q a))) = closes (data a).
Proof. rewrite add_indicators_run. reflexivity. Qed.

(** X2.  Running [add_indicators] a second time changes nothing: the seven
    columns are recomputed from the same closes and overwrite themselves. *)
Theorem add_indicators_idempotent sqrt_q a :
  add_indicators sqrt_q (snd (add_indicators sqrt_q a))
  = (Ok tt, snd (add_indicators sqrt_q a)).
Proof.
  rewrite (add_indicators_run sqrt_q (snd (add_indicators sqrt_q a))).
  cbv zeta. rewrite closes_after_add_indicators.
  rewrite add_indicators_run. cbv zeta. cbn [snd].
  unfold set_columns, set_data. cbn [symbol start_date end_date data bars columns].
  f_equal. f_equal. f_equal.
  apply map_eq. intros k.
  destruct (decide ("BB_middle" = k)) as [<-|?]; [lookup_inserts|].
  destruct (decide ("BB_lower" = k)) as [<-|?]; [lookup_inserts|].
  destruct (decide ("BB_upper" = k)) as [<-|?]; [lookup_inserts|].
  destruct (decide ("RSI" = k)) as [<-|?]; [lookup_inserts|].
  destruct (decide ("EMA20" = k)) as [<-|?]; [lookup_inserts|].
  destruct (decide ("SMA50" = k)) as [<-|?]; [lookup_inserts|].
  destruct (decide ("SMA20" = k)) as [<-|?]; [lookup_inserts|].
  lookup_inserts.
Qed.

Lemma rsi_column_length close w :
  length (zip_with rsi_cell (rsi_emaup close w) (rsi_emadn close w)) = length close.
Proof.
  destruct (rsi_smoothed_length close w) as [Lu Ld].
  rewrite length_zip_with, Lu, Ld. lia.
Qed.

Lemma band_columns_length sqrt_q close w dev :
  length (bollinger_mavg close w) = length close /\
  length (bollinger_hband sqrt_q close w dev) = length close /\
  length (bollinger_lband sqrt_q close w dev) = length close.
Proof.
  assert (Lm : length (bollinger_mavg close w) = length close)
    by apply rolling_mean_length.
  assert (El : length (bollinger_mavg close w) = length (bollinger_mstd sqrt_q close w)).
  { unfold bollinger_mavg, bollinger_mstd.
    rewrite rolling_mean_length, rolling_std_length. reflexivity. }
  split; [exact Lm|].
  unfold bollinger_hband, bollinger_lband.
  rewrite !band_length by exact El. split; exact Lm.
Qed.

Lemma add_indicators_aligned_state sqrt_q a :
  aligned (data a) -> aligned (data (snd (add_indicators sqrt_q a))).
Proof.
  intros Ha. rewrite add_indicators_run. cbv zeta. unfold aligned. simpl.
  destruct (band_columns_length sqrt_q (closes (data a)) 20 2) as (Lm & Lh & Ll).
  pose proof (closes_length (data a)) as Lc.
  repeat (apply map_Forall_insert_2; [simpl|]).
  - rewrite Lm. exact Lc.
  - rewrite Ll. exact Lc.
  - rewrite Lh. exact Lc.
  - rewrite rsi_column_length. exact Lc.
  - rewrite ewm_mean_length. exact Lc.
  - unfold sma_indicator. rewrite rolling_mean_length. exact Lc.
  - unfold sma_indicator. rewrite rolling_mean_length. exact Lc.
  - exact Ha.
Qed.

(** X3.  [add_indicators] keeps the table aligned: if every column had the
    length of the series before, so has every column afterwards, the seven
    new ones included. *)
Theorem add_indicators_aligned sqrt_q a :
  aligned (data a) -> aligned (data (snd (add_indicators sqrt_q a))).
Proof. apply add_indicators_aligned_state. Qed.

Lemma add_indicators_aligned_witness :
  aligned (data sample_annotated) /\
  aligned (data (snd (add_indicators (fun q => q) sample_annotated))).
Proof.
  assert (H : aligned (data sample_annotated)).
  { unfold aligned. refine (bool_decide_unpack _ _). vm_compute. exact I. }
  split; [exact H|].
  apply (add_indicators_aligned (fun q => q) sample_annotated). exact H.
Defined.

(** ** [identify_patterns] *)

Lemma as_float_length c : length (as_float c) = col_length c.
Proof. destruct c as [xs|bs]; simpl; [reflexivity|apply length_map]. Qed.

Lemma identify_patterns_aligned_state a :
  aligned (data a) -> aligned (data (snd (identify_patterns a))).
Proof.
  intros Ha. rewrite identify_patterns_run.
  destruct (columns (data a) !! "SMA20") as [fast|] eqn:Hf; [|exact Ha].
  destruct (columns (data a) !! "SMA50") as [slow|] eqn:Hs; [|exact Ha].
  pose proof (Ha _ _ Hf) as Lf. pose proof (Ha _ _ Hs) as Ls. simpl in Lf, Ls.
  destruct (cells_length fast slow) as [Lg Ld]; [congruence|].
  assert (Hcross : map_Forall (fun _ c => col_length c = length (bars (data a)))
            (<["Death_Cross" := BoolCol (death_cells fast slow)]>
               (<["Golden_Cross" := BoolCol (golden_cells fast slow)]>
                  (columns (data a))))).
  { repeat (apply map_Forall_insert_2; [simpl; congruence|]). exact Ha. }
  destruct (columns (data a) !! "RSI") as [r|] eqn:Hr; cbv zeta; unfold aligned; simpl.
  - pose proof (Ha _ _ Hr) as Lr. simpl in Lr.
    repeat (apply map_Forall_insert_2;
            [simpl; rewrite length_map, as_float_length; exact Lr|]).
    exact Hcross.
  - exact Hcross.
Qed.

(** X4.  [identify_patterns] keeps the table aligned, whether it completes
    or stops at a missing column: every column it has assigned by then has
    the length of the series. *)
Theorem identify_patterns_aligned a :
  aligned (data a) -> aligned (data (snd (identify_patterns a))).
Proof. apply identify_patterns_aligned_state. Qed.

Lemma identify_patterns_aligned_witness :
  aligned (data sample_crossing) /\
  aligned (data (snd (identify_patterns sample_crossing))).
Proof.
  assert (H : aligned (data sample_crossing)).
  { unfold aligned. refine (bool_decide_unpack _ _). vm_compute. exact I. }
  split; [exact H|].
  apply (identify_patterns_aligned sample_crossing). exact H.
Defined.

Lemma identify_patterns_thresholds a fast slow r :
  columns (data a) !! "SMA20" = Some fast ->
  columns (data a) !! "SMA50" = Some slow ->
  columns (data a) !! "RSI" = Some r ->
  fst (identify_patterns a) = Ok tt /\
  columns (data (snd (identify_patterns a))) !! "Oversold"
  = Some (BoolCol (map (fun x => cell_lt x (Some 30)) (as_float r))) /\
  columns (data (snd (identify_patterns a))) !! "Overbought"
  = Some (BoolCol (map (fun x => cell_lt (Some 70) x) (as_float r))).
Proof.
  intros Hf Hs Hr. rewrite identify_patterns_run, Hf, Hs, Hr. simpl.
  split; [reflexivity|]. split.
  - rewrite lookup_insert_ne by discriminate. apply lookup_insert_eq.
  - apply lookup_insert_eq.
Qed.

(** X5.  With the three indicator columns present and RSI a float column
    [r], [identify_patterns] completes and leaves boolean columns Oversold
    and Overbought of the length of [r]: Oversold is true at an index
    exactly when the RSI is present there and below 30, Overbought exactly
    when it is present and above 70, and the two are never true together. *)
Theorem threshold_columns a fast slow r :
  columns (data a) !! "SMA20" = Some fast ->
  columns (data a) !! "SMA50" = Some slow ->
  columns (data a) !! "RSI" = Some (FloatCol r) ->
  exists os ob,
    fst (identify_patterns a) = Ok tt /\
    columns (data (snd (identify_patterns a))) !! "Oversold" = Some (BoolCol os) /\
    columns (data (snd (identify_patterns a))) !! "Overbought" = Some (BoolCol ob) /\
    length os = length r /\
    length ob = length r /\
    forall i,
      (os !! i = Some true <-> exists v, r !! i = Some (Some v) /\ v < 30) /\
      (ob !! i = Some true <-> exists v, r !! i = Some (Some v) /\ 70 < v) /\
      ~ (os !! i = Some true /\ ob !! i = Some true).
Proof.
  intros Hf Hs Hr.
  destruct (identify_patterns_thresholds a _ _ _ Hf Hs Hr) as (Hok & Hos & Hob).
  simpl in Hos, Hob.
  eexists. eexists.
  split; [exact Hok|]. split; [exact Hos|]. split; [exact Hob|].
  split; [apply length_map|]. split; [apply length_map|].
  intros i.
  assert (Hlo : map (fun x => cell_lt x (Some 30)) r !! i = Some true <->
                exists v, r !! i = Some (Some v) /\ v < 30).
  { rewrite list_lookup_fmap. split.
    - destruct (r !! i) as [c|]; simpl; [|discriminate].
      intros [= H]. destruct c as [v|]; [|discriminate].
      apply Qlt_bool_iff in H. eauto.
    - intros (v & -> & Hlt). simpl. f_equal. apply Qlt_bool_iff, Hlt. }
  assert (Hhi : map (fun x => cell_lt (Some 70) x) r !! i = Some true <->
                exists v, r !! i = Some (Some v) /\ 70 < v).
  { rewrite list_lookup_fmap. split.
    - destruct (r !! i) as [c|]; simpl; [|discriminate].
      intros [= H]. destruct c as [v|]; [|discriminate].
      apply Qlt_bool_iff in H. eauto.
    - intros (v & -> & Hlt). simpl. f_equal. apply Qlt_bool_iff, Hlt. }
  split; [exact Hlo|]. split; [exact Hhi|].
  intros [H1 H2]. apply Hlo in H1 as (v & Hv & Hlt). apply Hhi in H2 as (v' & Hv' & Hgt).
  rewrite Hv in Hv'. injection Hv' as <-. lra.
Qed.

Lemma threshold_columns_witness :
  exists os ob,
    fst (identify_patterns sample_crossing) = Ok tt /\
    columns (data (snd (identify_patterns sample_crossing))) !! "Oversold"
    = Some (BoolCol os) /\
    columns (data (snd (identify_patterns sample_crossing))) !! "Overbought"
    = Some (BoolCol ob) /\
    length os = 4%nat /\
    length ob = 4%nat /\
    forall i,
      (os !! i = Some true <->
       exists v, [None; None; Some 100; Some 20] !! i = Some (Some v) /\ v < 30) /\
      (ob !! i = Some true <->
       exists v, [None; None; Some 100; Some 20] !! i = Some (Some v) /\ 70 < v) /\
      ~ (os !! i = Some true /\ ob !! i = Some true).
Proof.
  apply (threshold_columns sample_crossing
           (FloatCol [None; Some 5; Some 7; Some 5])
           (FloatCol [None; Some 5; Some 6; Some 6])
           [None; None; Some 100; Some 20]).
  - vm_compute. reflexivity.
  - vm_compute. reflexivity.
  - vm_compute. reflexivity.
Defined.

(** X6.  What [identify_patterns] does when a column it reads is missing.
    Without SMA20, or with SMA20 but without SMA50, it raises [KeyError]
    for that name and leaves the object untouched.  With both averages but
    without RSI it raises [KeyError] for ['RSI'] after it has already
    assigned Golden_Cross and Death_Cross; Oversold and Overbought are left
    as they were. *)
Theorem identify_patterns_missing_column a :
  (columns (data a) !! "SMA20" = None ->
   identify_patterns a = (Err (KeyError "SMA20"), a)) /\
  (forall fast,
      columns (data a) !! "SMA20" = Some fast ->
      columns (data a) !! "SMA50" = None ->
      identify_patterns a = (Err (KeyError "SMA50"), a)) /\
  (forall fast slow,
      columns (data a) !! "SMA20" = Some fast ->
      columns (data a) !! "SMA50" = Some slow ->
      columns (data a) !! "RSI" = None ->
      let a' := snd (identify_patterns a) in
      fst (identify_patterns a) = Err (KeyError "RSI") /\
      bars (data a') = bars (data a) /\
      columns (data a') !! "Golden_Cross" = Some (BoolCol (golden_cells fast slow)) /\
      columns (data a') !! "Death_Cross" = Some (BoolCol (death_cells fast slow)) /\
      columns (data a') !! "Oversold" = columns (data a) !! "Oversold" /\
      columns (data a') !! "Overbought" = columns (data a) !! "Overbought").
Proof.
  split; [|split].
  - intros Hf. rewrite identify_patterns_run, Hf. reflexivity.
  - intros fast Hf Hs. rewrite identify_patterns_run, Hf, Hs. reflexivity.
  - intros fast slow Hf Hs Hr a'. subst a'.
    rewrite identify_patterns_run, Hf, Hs, Hr. simpl.
    repeat split; lookup_inserts.
Qed.

Lemma identify_patterns_missing_column_witness :
  let a := analyzer_of [4; 5; 6]
             (<["SMA20" := FloatCol [None; Some 4; Some 6]]>
                (<["SMA50" := FloatCol [None; Some 5; Some 5]]> ∅)) in
  fst (identify_patterns a) = Err (KeyError "RSI") /\
  columns (data (snd (identify_patterns a))) !! "Golden_Cross"
  = Some (BoolCol [false; false; true]) /\
  columns (data (snd (identify_patterns a))) !! "Oversold" = None.
Proof.
  cbv zeta.
  destruct (proj2 (proj2 (identify_patterns_missing_column
              (analyzer_of [4; 5; 6]
                 (<["SMA20" := FloatCol [None; Some 4; Some 6]]>
                    (<["SMA50" := FloatCol [None; Some 5; Some 5]]> ∅)))))
              (FloatCol [None; Some 4; Some 6]) (FloatCol [None; Some 5; Some 5]))
    as (He & _ & Hg & _ & Ho & _).
  - vm_compute. reflexivity.
  - vm_compute. reflexivity.
  - vm_compute. reflexivity.
  - split; [exact He|]. split.
    + rewrite Hg. vm_compute. reflexivity.
    + rewrite Ho. vm_compute. reflexivity.
Defined.

(** X7.  [identify_patterns] touches only its four columns, and once it has
    completed, running it again changes nothing. *)
Theorem identify_patterns_frame a :
  (forall name,
      name ∉ signal_names ->
      bars (data (snd (identify_patterns a))) = bars (data a) /\
      columns (data (snd (identify_patterns a))) !! name = columns (data a) !! name) /\
  (fst (identify_patterns a) = Ok tt ->
   identify_patterns (snd (identify_patterns a))
   = (Ok tt, snd (identify_patterns a))).
Proof.
  split.
  - intros name Hn.
    assert (Hne : forall k, k ∈ signal_names -> k <> name).
    { intros k Hk ->. contradiction. }
    unfold signal_names in Hne.
    rewrite identify_patterns_run.
    destruct (columns (data a) !! "SMA20") as [fast|]; [|split; reflexivity].
    destruct (columns (data a) !! "SMA50") as [slow|]; [|split; reflexivity].
    destruct (columns (data a) !! "RSI") as [r|]; simpl; (split; [reflexivity|]);
      repeat (rewrite lookup_insert_ne by (apply Hne; set_solver)); reflexivity.
  - intros Hok.
    destruct (columns (data a) !! "SMA20") as [fast|] eqn:Hf;
      [|rewrite identify_patterns_run, Hf in Hok; discriminate].
    destruct (columns (data a) !! "SMA50") as [slow|] eqn:Hs;
      [|rewrite identify_patterns_run, Hf, Hs in Hok; discriminate].
    destruct (columns (data a) !! "RSI") as [r|] eqn:Hr;
      [|rewrite identify_patterns_run, Hf, Hs, Hr in Hok; discriminate].
    assert (Ha' : snd (identify_patterns a) =
      set_columns
        (<["Overbought" := BoolCol (map (fun x => cell_lt (Some 70) x) (as_float r))]>
           (<["Oversold" := BoolCol (map (fun x => cell_lt x (Some 30)) (as_float r))]>
              (<["Death_Cross" := BoolCol (death_cells fast slow)]>
                 (<["Golden_Cross" := BoolCol (golden_cells fast slow)]>
                    (columns (data a)))))) a).
    { rewrite identify_patterns_run, Hf, Hs, Hr. reflexivity. }
    rewrite Ha'. rewrite identify_patterns_run. simpl.
    do 4 (rewrite lookup_insert_ne by discriminate). rewrite Hf.
    do 4 (rewrite lookup_insert_ne by discriminate). rewrite Hs.
    do 4 (rewrite lookup_insert_ne by discriminate). rewrite Hr.
    unfold set_columns, set_data. simpl. f_equal. f_equal. f_equal.
    apply map_eq. intros k.
    destruct (decide ("Overbought" = k)) as [<-|?]; [lookup_inserts|].
    destruct (decide ("Oversold" = k)) as [<-|?]; [lookup_inserts|].
    destruct (decide ("Death_Cross" = k)) as [<-|?]; [lookup_inserts|].
    destruct (decide ("Golden_Cross" = k)) as [<-|?]; [lookup_inserts|].
    lookup_inserts.
Qed.

Lemma identify_patterns_frame_witness :
  columns (data (snd (identify_patterns sample_crossing))) !! "SMA20"
  = columns (data sample_crossing) !! "SMA20" /\
  identify_patterns (snd (identify_patterns sample_crossing))
  = (Ok tt, snd (identify_patterns sample_crossing)).
Proof.
  split.
  - apply (proj1 (identify_patterns_frame sample_crossing) "SMA20").
    unfold signal_names. intros H.
    repeat (apply elem_of_cons in H as [H|H]; [discriminate|]).
    apply elem_of_nil in H. exact H.
  - apply (proj2 (identify_patterns_frame sample_crossing)).
    vm_compute. reflexivity.
Defined.

(** ** [generate_report] *)

Lemma generate_report_fields a rsi_col golden death oversold overbought :
  bars (data a) <> [] ->
  aligned (data a) ->
  columns (data a) !! "RSI" = Some (FloatCol rsi_col) ->
  columns (data a) !! "Golden_Cross" = Some (BoolCol golden) ->
  columns (data a) !! "Death_Cross" = Some (BoolCol death) ->
  columns (data a) !! "Oversold" = Some (BoolCol oversold) ->
  columns (data a) !! "Overbought" = Some (BoolCol overbought) ->
  exists r first_close last_close rsi_last,
    generate_report a = (Ok r, a) /\
    head (closes (data a)) = Some first_close /\
    last (closes (data a)) = Some last_close /\
    last rsi_col = Some rsi_last /\
    r_symbol r = symbol a /\
    r_period r = start_date a ++ " to " ++ end_date a /\
    r_current_price r = Finite last_close /\
    r_price_change r
    = f_mul (f_div (f_sub (Finite last_close) (Finite first_close))
                   (Finite first_close)) (Finite 100) /\
    r_rsi r = SFloat (cell_float rsi_last) /\
    r_golden_crosses r = count_true golden /\
    r_death_crosses r = count_true death /\
    r_times_oversold r = count_true oversold /\
    r_times_overbought r = count_true overbought.
Proof.
  intros Hne Hal Hr Hg Hd Hos Hob.
  destruct (close_last_ok a Hne) as (l & Hl & Hlast).
  destruct (price_change_pct_ok a Hne) as (f & l' & Hhead & Hlast' & Hpc).
  rewrite Hlast in Hlast'. injection Hlast' as <-.
  destruct (item_last_ok rsi_col) as (x & Hx & Hxl).
  { intros ->. apply (Hal "RSI") in Hr. simpl in Hr.
    apply Hne. apply length_zero_iff_nil. congruence. }
  eexists. exists f, l, x.
  split.
  - unfold generate_report.
    unfold gets at 1 2 3. unfold bind at 1 2 3.
    rewrite (bind_ok _ _ _ _ _ Hl), (bind_ok _ _ _ _ _ Hpc).
    rewrite (bind_ok _ _ _ _ _ (getitem_derived "RSI" _ _ eq_refl Hr)).
    unfold lift at 1, column_last. rewrite Hx. unfold bind at 1.
    rewrite (bind_ok _ _ _ _ _ (count_rows_ok "Golden_Cross" _ _ eq_refl Hg)).
    rewrite (bind_ok _ _ _ _ _ (count_rows_ok "Death_Cross" _ _ eq_refl Hd)).
    rewrite (bind_ok _ _ _ _ _ (count_rows_ok "Oversold" _ _ eq_refl Hos)).
    rewrite (bind_ok _ _ _ _ _ (count_rows_ok "Overbought" _ _ eq_refl Hob)).
    reflexivity.
  - simpl. repeat split; assumption.
Qed.

Lemma generate_report_no_rsi a :
  bars (data a) <> [] ->
  columns (data a) !! "RSI" = None ->
  generate_report a = (Err (KeyError "RSI"), a).
Proof.
  intros Hne Hr.
  destruct (close_last_ok a Hne) as (l & Hl & _).
  destruct (price_change_pct_ok a Hne) as (f & l' & _ & _ & Hpc).
  unfold generate_report.
  unfold gets at 1 2 3. unfold bind at 1 2 3.
  rewrite (bind_ok _ _ _ _ _ Hl), (bind_ok _ _ _ _ _ Hpc).
  apply bind_err. apply getitem_missing; [reflexivity|exact Hr].
Qed.

Lemma generate_report_no_signal a rsi_col :
  bars (data a) <> [] ->
  aligned (data a) ->
  columns (data a) !! "RSI" = Some (FloatCol rsi_col) ->
  columns (data a) !! "Golden_Cross" = None ->
  generate_report a = (Err (KeyError "Golden_Cross"), a).
Proof.
  intros Hne Hal Hr Hg.
  destruct (close_last_ok a Hne) as (l & Hl & _).
  destruct (price_change_pct_ok a Hne) as (f & l' & _ & _ & Hpc).
  destruct (item_last_ok rsi_col) as (x & Hx & _).
  { intros ->. apply (Hal "RSI") in Hr. simpl in Hr.
    apply Hne. apply length_zero_iff_nil. congruence. }
  unfold generate_report.
  unfold gets at 1 2 3. unfold bind at 1 2 3.
  rewrite (bind_ok _ _ _ _ _ Hl), (bind_ok _ _ _ _ _ Hpc).
  rewrite (bind_ok _ _ _ _ _ (getitem_derived "RSI" _ _ eq_refl Hr)).
  unfold lift at 1, column_last. rewrite Hx. unfold bind at 1.
  apply bind_err. unfold count_rows. apply bind_err.
  apply getitem_missing; [reflexivity|exact Hg].
Qed.

Lemma aligned_fresh a : columns (data a) = ∅ -> aligned (data a).
Proof. intros H. unfold aligned. rewrite H. apply map_Forall_empty. Qed.

(** X8.  Calling [generate_report] too early.  On a freshly constructed
    analyzer it raises [KeyError] for ['RSI']; after [add_indicators] alone
    it raises [KeyError] for ['Golden_Cross'].  In both cases the object is
    left as it was. *)
Theorem generate_report_too_early sqrt_q env sym sd ed a :
  CryptoAnalyzer_init env sym sd ed = Ok a ->
  generate_report a = (Err (KeyError "RSI"), a) /\
  generate_report (snd (add_indicators sqrt_q a))
  = (Err (KeyError "Golden_Cross"), snd (add_indicators sqrt_q a)).
Proof.
  intros H. apply init_ok in H as (_ & _ & Hne & Hcols). split.
  - apply generate_report_no_rsi; [exact Hne|]. rewrite Hcols. apply lookup_empty.
  - destruct (add_indicators_columns sqrt_q a)
      as (_ & Hb & _ & _ & _ & (r & Hr & Hrc) & _).
    apply (generate_report_no_signal _ r).
    + rewrite Hb. exact Hne.
    + apply add_indicators_aligned_state, aligned_fresh, Hcols.
    + exact Hrc.
    + rewrite add_indicators_run. simpl.
      do 7 (rewrite lookup_insert_ne by discriminate).
      rewrite Hcols. apply lookup_empty.
Qed.

Lemma generate_report_too_early_witness :
  generate_report (analyzer_of [4; 5; 6] ∅)
  = (Err (KeyError "RSI"), analyzer_of [4; 5; 6] ∅) /\
  generate_report (snd (add_indicators (fun q => q) (analyzer_of [4; 5; 6] ∅)))
  = (Err (KeyError "Golden_Cross"),
     snd (add_indicators (fun q => q) (analyzer_of [4; 5; 6] ∅))).
Proof.
  apply (generate_report_too_early (fun q => q) (env_of [4; 5; 6]) "BTC" None None).
  reflexivity.
Defined.

(** ** The stages in sequence *)

Lemma pipeline_run sqrt_q a :
  let a1 := snd (add_indicators sqrt_q a) in
  let close := closes (data a) in
  let fast := FloatCol (sma_indicator close 20) in
  let slow := FloatCol (sma_indicator close 50) in
  let r := pipeline_rsi close in
  columns (data a1) !! "RSI" = Some (FloatCol r) /\
  identify_patterns a1 =
  (Ok tt,
   set_columns
     (<["Overbought" := BoolCol (map (fun x => cell_lt (Some 70) x) r)]>
        (<["Oversold" := BoolCol (map (fun x => cell_lt x (Some 30)) r)]>
           (<["Death_Cross" := BoolCol (death_cells fast slow)]>
              (<["Golden_Cross" := BoolCol (golden_cells fast slow)]>
                 (columns (data a1)))))) a1).
Proof.
  intros a1 close fast slow r.
  destruct (add_indicators_columns sqrt_q a)
    as (_ & _ & H20 & H50 & _ & (rc & Hrc & Hr) & _).
  fold a1 in H20, H50, Hr. fold close in H20, H50, Hrc.
  change (rsi close 14) with (Ok (pipeline_rsi close)) in Hrc.
  injection Hrc as <-. fold r in Hr.
  split; [exact Hr|].
  rewrite identify_patterns_run, H20, H50, Hr. reflexivity.
Qed.

Lemma pipeline_annotated_state sqrt_q a :
  bars (data a) <> [] ->
  aligned (data a) ->
  let a1 := snd (add_indicators sqrt_q a) in
  let a2 := snd (identify_patterns a1) in
  fst (identify_patterns a1) = Ok tt /\
  bars (data a2) = bars (data a) /\
  symbol a2 = symbol a /\ start_date a2 = start_date a /\ end_date a2 = end_date a /\
  annotated a2.
Proof.
  intros Hne Hal a1 a2.
  destruct (pipeline_run sqrt_q a) as (Hr & Hrun). fold a1 in Hr, Hrun.
  assert (Hb1 : bars (data a1) = bars (data a) /\ symbol a1 = symbol a /\
                start_date a1 = start_date a /\ end_date a1 = end_date a).
  { subst a1. rewrite add_indicators_run. repeat split. }
  destruct Hb1 as (Hb1 & Hs1 & Hsd1 & Hed1).
  assert (Hal2 : aligned (data a2)).
  { apply identify_patterns_aligned_state, add_indicators_aligned_state, Hal. }
  clearbody a1. subst a2. rewrite Hrun in *. simpl in *.
  split; [reflexivity|]. split; [exact Hb1|].
  split; [exact Hs1|]. split; [exact Hsd1|]. split; [exact Hed1|].
  unfold annotated, is_signal. simpl.
  split; [rewrite Hb1; exact Hne|].
  split; [exact Hal2|].
  split.
  { eexists. do 4 (rewrite lookup_insert_ne by discriminate). exact Hr. }
  repeat split; eexists; lookup_inserts.
Qed.

(** X9.  The stages compose: on a non-empty, aligned table, and so on every
    freshly constructed analyzer, [add_indicators] followed by
    [identify_patterns] completes, keeps the symbol, the dates and the bars,
    and leaves a state on which [generate_report] returns a report. *)
Theorem pipeline_annotated sqrt_q a :
  bars (data a) <> [] ->
  aligned (data a) ->
  let a1 := snd (add_indicators sqrt_q a) in
  let a2 := snd (identify_patterns a1) in
  fst (add_indicators sqrt_q a) = Ok tt /\
  fst (identify_patterns a1) = Ok tt /\
  bars (data a2) = bars (data a) /\
  symbol a2 = symbol a /\ start_date a2 = start_date a /\ end_date a2 = end_date a /\
  annotated a2 /\
  exists r, generate_report a2 = (Ok r, a2).
Proof.
  intros Hne Hal a1 a2.
  destruct (pipeline_annotated_state sqrt_q a Hne Hal) as (Hok & Hb & Hs & Hsd & Hed & Han).
  fold a1 in Hok. fold a2 in Hb, Hs, Hsd, Hed, Han.
  split; [rewrite add_indicators_run; reflexivity|].
  repeat (split; [assumption|]).
  destruct (generate_report_returns a2 Han) as (r & Hr & _). eauto.
Qed.

Lemma pipeline_annotated_witness :
  let a := analyzer_of [4; 5; 6] ∅ in
  let a2 := snd (identify_patterns (snd (add_indicators (fun q => q) a))) in
  bars (data a) <> [] /\
  annotated a2 /\
  exists r, generate_report a2 = (Ok r, a2).
Proof.
  cbv zeta.
  destruct (pipeline_annotated (fun q => q) (analyzer_of [4; 5; 6] ∅))
    as (_ & _ & _ & _ & _ & _ & Han & Hr).
  - discriminate.
  - apply aligned_fresh. reflexivity.
  - split; [discriminate|]. split; [exact Han|exact Hr].
Defined.

Lemma pipeline_report sqrt_q a :
  bars (data a) <> [] ->
  aligned (data a) ->
  let a1 := snd (add_indicators sqrt_q a) in
  let a2 := snd (identify_patterns a1) in
  let close := closes (data a) in
  let fast := FloatCol (sma_indicator close 20) in
  let slow := FloatCol (sma_indicator close 50) in
  exists r first_close last_close rsi_last,
    generate_report a2 = (Ok r, a2) /\
    head close = Some first_close /\
    last close = Some last_close /\
    last (pipeline_rsi close) = Some rsi_last /\
    r_symbol r = symbol a /\
    r_period r = start_date a ++ " to " ++ end_date a /\
    r_current_price r = Finite last_close /\
    r_price_change r
    = f_mul (f_div (f_sub (Finite last_close) (Finite first_close))
                   (Finite first_close)) (Finite 100) /\
    r_rsi r = SFloat (cell_float rsi_last) /\
    r_golden_crosses r = count_true (golden_cells fast slow) /\
    r_death_crosses r = count_true (death_cells fast slow) /\
    r_times_oversold r
    = count_true (map (fun x => cell_lt x (Some 30)) (pipeline_rsi close)) /\
    r_times_overbought r
    = count_true (map (fun x => cell_lt (Some 70) x) (pipeline_rsi close)).
Proof.
  intros Hne Hal a1 a2 close fast slow.
  destruct (pipeline_annotated_state sqrt_q a Hne Hal)
    as (_ & Hb & Hs & Hsd & Hed & (Hne2 & Hal2 & _)).
  fold a1 in Hb, Hs, Hsd, Hed, Hne2, Hal2. fold a2 in Hb, Hs, Hsd, Hed, Hne2, Hal2.
  destruct (pipeline_run sqrt_q a) as (Hr & Hrun). fold a1 in Hr, Hrun.
  fold close in Hr, Hrun. fold fast slow in Hrun.
  assert (Hcols : columns (data a2) =
    <["Overbought" := BoolCol (map (fun x => cell_lt (Some 70) x) (pipeline_rsi close))]>
      (<["Oversold" := BoolCol (map (fun x => cell_lt x (Some 30)) (pipeline_rsi close))]>
         (<["Death_Cross" := BoolCol (death_cells fast slow)]>
            (<["Golden_Cross" := BoolCol (golden_cells fast slow)]>
               (columns (data a1)))))).
  { subst a2. rewrite Hrun. reflexivity. }
  assert (Hc : closes (data a2) = close).
  { unfold closes. rewrite Hb. reflexivity. }
  clearbody a2 a1.
  destruct (generate_report_fields a2 (pipeline_rsi close)
              (golden_cells fast slow) (death_cells fast slow)
              (map (fun x => cell_lt x (Some 30)) (pipeline_rsi close))
              (map (fun x => cell_lt (Some 70) x) (pipeline_rsi close)))
    as (r & f & l & x & Hrep & Hf & Hl & Hx & F1 & F2 & F3 & F4 & F5 & F6 & F7 & F8 & F9);
    try assumption.
  - rewrite Hcols. do 4 (rewrite lookup_insert_ne by discriminate). exact Hr.
  - rewrite Hcols. lookup_inserts.
  - rewrite Hcols. lookup_inserts.
  - rewrite Hcols. lookup_inserts.
  - rewrite Hcols. lookup_inserts.
  - exists r, f, l, x. rewrite Hc in Hf, Hl. rewrite Hs, Hsd, Hed in *.
    repeat split; assumption.
Qed.

Lemma init_nonempty env sym sd ed :
  history env (sym ++ "-USD") (or_default sd (year_ago env))
          (or_default ed (today env)) <> [] ->
  CryptoAnalyzer_init env sym sd ed
  = Ok {| symbol := sym;
          start_date := or_default sd (year_ago env);
          end_date := or_default ed (today env);
          data := {| bars := history env (sym ++ "-USD")
                               (or_default sd (year_ago env))
                               (or_default ed (today env));
                     columns := ∅ |} |}.
Proof.
  intros H. unfold CryptoAnalyzer_init, load_data, bind, gets, put_data, raise, ret.
  simpl.
  destruct (history env (sym ++ "-USD") (or_default sd (year_ago env))
                    (or_default ed (today env))) as [|b bs] eqn:Hh; [congruence|].
  reflexivity.
Qed.

(** X10.  The constructor.  When the provider returns bars for the ticker
    [symbol-USD] over the requested dates, the analyzer holds the symbol,
    the two dates, exactly those bars and no derived column.  A date given
    as the empty string is treated like an omitted one: both fall back to
    the default dates. *)
Theorem constructor_result env sym sd ed :
  (history env (sym ++ "-USD") (or_default sd (year_ago env))
           (or_default ed (today env)) <> [] ->
   CryptoAnalyzer_init env sym sd ed
   = Ok {| symbol := sym;
           start_date := or_default sd (year_ago env);
           end_date := or_default ed (today env);
           data := {| bars := history env (sym ++ "-USD")
                                (or_default sd (year_ago env))
                                (or_default ed (today env));
                      columns := ∅ |} |}) /\
  CryptoAnalyzer_init env sym (Some "") (Some "") = CryptoAnalyzer_init env sym None None.
Proof.
  split; [apply init_nonempty|]. reflexivity.
Qed.

Lemma constructor_result_witness :
  CryptoAnalyzer_init (env_of [4; 5]) "ETH" (Some "2024-01-01") None
  = Ok {| symbol := "ETH"; start_date := "2024-01-01"; end_date := "2024-06-30";
          data := {| bars := bars_of [4; 5]; columns := ∅ |} |}.
Proof.
  apply (proj1 (constructor_result (env_of [4; 5]) "ETH" (Some "2024-01-01") None)).
  discriminate.
Defined.





(** ** Warm-up seen from the report *)

Lemma count_true_none (bs : list bool) :
  (forall i, bs !! i <> Some true) -> count_true bs = 0%nat.
Proof.
  unfold count_true. induction bs as [|b bs IH]; intros H; [reflexivity|].
  destruct b.
  - exfalso. exact (H 0%nat eq_refl).
  - rewrite filter_cons_False by discriminate.
    apply IH. intros i. exact (H (S i)).
Qed.

Lemma count_true_le (bs : list bool) : (count_true bs <= length bs)%nat.
Proof. unfold count_true. apply length_filter. Qed.

Lemma crossover_needs_slow_prev fast slow i :
  golden_cells (FloatCol fast) (FloatCol slow) !! i = Some true \/
  death_cells (FloatCol fast) (FloatCol slow) !! i = Some true ->
  exists j s, i = S j /\ slow !! j = Some (Some s).
Proof.
  intros [H|H].
  - apply golden_cells_spec in H as (j & f & s & f' & s' & -> & _ & _ & _ & Hs & _).
    eauto.
  - apply death_cells_spec in H as (j & f & s & f' & s' & -> & _ & _ & _ & Hs & _).
    eauto.
Qed.

Lemma pipeline_crossover_late close i :
  golden_cells (FloatCol (sma_indicator close 20)) (FloatCol (sma_indicator close 50)) !! i
  = Some true \/
  death_cells (FloatCol (sma_indicator close 20)) (FloatCol (sma_indicator close 50)) !! i
  = Some true ->
  (50 <= i)%nat /\ (i < length close)%nat.
Proof.
  intros H.
  destruct (crossover_needs_slow_prev _ _ _ H) as (j & s & -> & Hs).
  split.
  - assert (Hp : (50 - 1 <= j)%nat).
    { apply (rolling_mean_present 50 close (ltac:(lia)) j (Some s) Hs). eauto. }
    lia.
  - destruct (cells_length (FloatCol (sma_indicator close 20))
                           (FloatCol (sma_indicator close 50))) as [Lg Ld].
    { simpl. unfold sma_indicator. rewrite !rolling_mean_length. reflexivity. }
    simpl in Lg, Ld.
    assert (L20 : length (sma_indicator close 20) = length close)
      by apply rolling_mean_length.
    rewrite L20 in Lg, Ld.
    destruct H as [H|H]; apply lookup_lt_Some in H; lia.
Qed.

(** X12.  A crossover needs fifty-one bars.  In the columns the two stages
    produce, Golden_Cross and Death_Cross are false at every index below
    50, because SMA50 has no value before index 49 and a crossover also
    reads the previous index.  With at most fifty bars the report therefore
    counts no golden and no death cross. *)
Theorem crossovers_need_history sqrt_q a :
  let a2 := snd (identify_patterns (snd (add_indicators sqrt_q a))) in
  (exists g d,
      columns (data a2) !! "Golden_Cross" = Some (BoolCol g) /\
      columns (data a2) !! "Death_Cross" = Some (BoolCol d) /\
      forall i, g !! i = Some true \/ d !! i = Some true -> (50 <= i)%nat) /\
  (bars (data a) <> [] ->
   aligned (data a) ->
   (length (bars (data a)) <= 50)%nat ->
   exists r, generate_report a2 = (Ok r, a2) /\
             r_golden_crosses r = 0%nat /\ r_death_crosses r = 0%nat).
Proof.
  intros a2. split.
  - destruct (pipeline_run sqrt_q a) as (_ & Hrun).
    exists (golden_cells (FloatCol (sma_indicator (closes (data a)) 20))
                         (FloatCol (sma_indicator (closes (data a)) 50))),
           (death_cells (FloatCol (sma_indicator (closes (data a)) 20))
                        (FloatCol (sma_indicator (closes (data a)) 50))).
    subst a2. rewrite Hrun. simpl.
    split; [lookup_inserts|]. split; [lookup_inserts|].
    intros i H. apply pipeline_crossover_late in H. tauto.
  - intros Hne Hal HL.
    destruct (pipeline_report sqrt_q a Hne Hal)
      as (r & f & l & x & Hrep & _ & _ & _ & _ & _ & _ & _ & _ & Fg & Fd & _).
    exists r. split; [exact Hrep|].
    rewrite Fg, Fd. rewrite <- closes_length in HL.
    split; apply count_true_none; intros i Hi;
      [assert (H : (50 <= i)%nat /\ (i < length (closes (data a)))%nat)
         by (apply pipeline_crossover_late; left; exact Hi)
      |assert (H : (50 <= i)%nat /\ (i < length (closes (data a)))%nat)
         by (apply pipeline_crossover_late; right; exact Hi)]; lia.
Qed.

Lemma crossovers_need_history_witness :
  let a := analyzer_of [4; 5; 6] ∅ in
  let a2 := snd (identify_patterns (snd (add_indicators (fun q => q) a))) in
  (length (bars (data a)) <= 50)%nat /\
  exists r, generate_report a2 = (Ok r, a2) /\
            r_golden_crosses r = 0%nat /\ r_death_crosses r = 0%nat.
Proof.
  cbv zeta. split; [simpl; lia|].
  apply (proj2 (crossovers_need_history (fun q => q) (analyzer_of [4; 5; 6] ∅))).
  - discriminate.
  - apply aligned_fresh. reflexivity.
  - simpl. lia.
Defined.

Lemma rsi_cell_present u d : is_Some u -> is_Some d -> is_Some (rsi_cell u d).
Proof.
  intros [x ->] [y ->]. unfold rsi_cell. destruct (Qeq_bool y 0); eauto.
Qed.

Lemma rsi_present close w :
  (1 <= w)%nat ->
  present_from (w - 1) (zip_with rsi_cell (rsi_emaup close w) (rsi_emadn close w)).
Proof.
  intros Hw i c Hc. rewrite lookup_zip_with in Hc.
  destruct (rsi_emaup close w !! i) as [u|] eqn:Eu; [|discriminate].
  destruct (rsi_emadn close w !! i) as [d|] eqn:Ed; [|discriminate].
  simpl in Hc. injection Hc as <-.
  pose proof (ewm_mean_present _ w _ Hw i u Eu) as Hu.
  pose proof (ewm_mean_present _ w _ Hw i d Ed) as Hd.
  split.
  - intros Hs. apply Hd. destruct d as [y|]; [eauto|].
    destruct Hs as [? Hs]. discriminate.
  - intros Hi. apply rsi_cell_present; [apply Hu|apply Hd]; exact Hi.
Qed.

Lemma rsi_warmed_up close w :
  (1 <= w)%nat ->
  exists col, rsi close w = Ok col /\ warmed_up w (length close) col.
Proof.
  intros Hw. exists (zip_with rsi_cell (rsi_emaup close w) (rsi_emadn close w)).
  split; [unfold rsi; rewrite (proj2 (Nat.eqb_neq w 0)) by lia; reflexivity|].
  rewrite <- (rsi_column_length close w) at 1.
  apply present_from_warmed_up; [exact Hw|]. apply rsi_present, Hw.
Qed.

Lemma pipeline_rsi_last close x :
  last (pipeline_rsi close) = Some x ->
  ((length close < 14)%nat -> x = None) /\
  ((14 <= length close)%nat -> exists v, x = Some v /\ 0 <= v /\ v <= 100).
Proof.
  intros Hx. rewrite last_lookup in Hx.
  unfold pipeline_rsi in Hx. rewrite rsi_column_length in Hx.
  pose proof (rsi_present close 14 (ltac:(lia)) _ _ Hx) as Hp.
  split.
  - intros HL. destruct x as [v|]; [|reflexivity].
    assert (14 - 1 <= pred (length close))%nat by (apply Hp; eauto). lia.
  - intros HL. destruct (proj2 Hp) as [v ->]; [lia|].
    exists v. split; [reflexivity|].
    destruct (rsi_cells close 14) as (col & Hcol & Hrange & _); [lia|].
    change (rsi close 14)
      with (Ok (zip_with rsi_cell (rsi_emaup close 14) (rsi_emadn close 14))) in Hcol.
    injection Hcol as <-. exact (Hrange _ _ Hx).
Qed.

(** X13.  The RSI warms up over [w] cells, not [w + 1]: for [w >= 1] the
    column is absent before index [w - 1] and present from there on.  In
    the report of the two stages the RSI entry is the last cell of that
    column for [w = 14]: NaN, not an exception, when the series has fewer
    than 14 bars, and a number between 0 and 100 otherwise. *)
Theorem rsi_warm_up :
  (forall close w,
      (1 <= w)%nat ->
      exists col, rsi close w = Ok col /\ warmed_up w (length close) col) /\
  (forall sqrt_q a,
      bars (data a) <> [] ->
      aligned (data a) ->
      let a2 := snd (identify_patterns (snd (add_indicators sqrt_q a))) in
      exists r,
        generate_report a2 = (Ok r, a2) /\
        ((length (bars (data a)) < 14)%nat -> r_rsi r = SFloat NaN) /\
        ((14 <= length (bars (data a)))%nat ->
         exists v, r_rsi r = SFloat (Finite v) /\ 0 <= v /\ v <= 100)).
Proof.
  split.
  - intros close w Hw. apply rsi_warmed_up, Hw.
  - intros sqrt_q a Hne Hal a2.
    destruct (pipeline_report sqrt_q a Hne Hal)
      as (r & f & l & x & Hrep & _ & _ & Hx & _ & _ & _ & _ & Fr & _).
    exists r. split; [exact Hrep|].
    destruct (pipeline_rsi_last _ _ Hx) as [Hshort Hlong].
    rewrite closes_length in Hshort, Hlong. rewrite Fr. split.
    + intros HL. rewrite (Hshort HL). reflexivity.
    + intros HL. destruct (Hlong HL) as (v & -> & Hv). exists v. split; [reflexivity|exact Hv].
Qed.

Lemma rsi_warm_up_witness :
  (exists col, rsi [5; 6; 4; 7] 2 = Ok col /\ warmed_up 2 4 col) /\
  let a2 := snd (identify_patterns
                   (snd (add_indicators (fun q => q) (analyzer_of [4; 5; 6] ∅)))) in
  exists r,
    generate_report a2 = (Ok r, a2) /\
    ((3 < 14)%nat -> r_rsi r = SFloat NaN) /\
    ((14 <= 3)%nat -> exists v, r_rsi r = SFloat (Finite v) /\ 0 <= v /\ v <= 100).
Proof.
  split.
  - apply (proj1 rsi_warm_up [5; 6; 4; 7] 2%nat). lia.
  - apply (proj2 rsi_warm_up (fun q => q) (analyzer_of [4; 5; 6] ∅)).
    + discriminate.
    + apply aligned_fresh. reflexivity.
Defined.

(** ** Bollinger bands *)

Lemma rolling_std_value sqrt_q w minp xs i s :
  rolling_std sqrt_q w minp xs !! i = Some (Some s) ->
  exists q, s = sqrt_q q.
Proof.
  unfold rolling_std. rewrite list_lookup_imap.
  destruct (xs !! i); [|discriminate]. simpl.
  destruct ((minp <=? _)%nat && _); [|discriminate].
  intros [= <-]. eauto.
Qed.

Lemma band_cells sqrt_q close w dev i :
  (forall u, bollinger_hband sqrt_q close w dev !! i = Some (Some u) ->
     exists m s, bollinger_mavg close w !! i = Some (Some m) /\
                 bollinger_mstd sqrt_q close w !! i = Some (Some s) /\
                 u = m + dev * s) /\
  (forall l, bollinger_lband sqrt_q close w dev !! i = Some (Some l) ->
     exists m s, bollinger_mavg close w !! i = Some (Some m) /\
                 bollinger_mstd sqrt_q close w !! i = Some (Some s) /\
                 l = m - dev * s).
Proof.
  unfold bollinger_hband, bollinger_lband.
  split; intros v Hv; rewrite lookup_zip_with in Hv;
    destruct (bollinger_mavg close w !! i) as [[m|]|]; try discriminate;
    simpl in Hv; rewrite list_lookup_fmap in Hv;
    destruct (bollinger_mstd sqrt_q close w !! i) as [[s|]|]; try discriminate;
    simpl in Hv; injection Hv as <-; exists m, s; repeat split.
Qed.

(** X14.  The Bollinger bands sit symmetrically around the moving average:
    wherever both bands are present, so is the average, and
    [upper + lower = 2 * average].  When the square root is non-negative and
    the width factor is non-negative, [lower <= average <= upper].  The
    BB_middle column of the pipeline is the same column as SMA20. *)
Theorem bollinger_bands_symmetric sqrt_q :
  (forall close w dev i u l,
      bollinger_hband sqrt_q close w dev !! i = Some (Some u) ->
      bollinger_lband sqrt_q close w dev !! i = Some (Some l) ->
      exists m,
        bollinger_mavg close w !! i = Some (Some m) /\
        u + l == 2 * m /\
        ((forall q, 0 <= sqrt_q q) -> 0 <= dev -> l <= m /\ m <= u)) /\
  (forall a,
      columns (data (snd (add_indicators sqrt_q a))) !! "BB_middle"
      = columns (data (snd (add_indicators sqrt_q a))) !! "SMA20").
Proof.
  split.
  - intros close w dev i u l Hu Hl.
    destruct (band_cells sqrt_q close w dev i) as [Bu Bl].
    destruct (Bu u Hu) as (m & s & Hm & Hs & ->).
    destruct (Bl l Hl) as (m' & s' & Hm' & Hs' & ->).
    rewrite Hm in Hm'. injection Hm' as <-.
    rewrite Hs in Hs'. injection Hs' as <-.
    exists m. split; [exact Hm|]. split; [ring|].
    intros Hsqrt Hdev.
    apply rolling_std_value in Hs as (q & ->).
    pose proof (Hsqrt q) as Hq.
    assert (0 <= dev * sqrt_q q) by (apply Qmult_le_0_compat; assumption).
    split; lra.
  - intros a.
    destruct (add_indicators_columns sqrt_q a) as (_ & _ & H20 & _ & _ & _ & _ & _ & Hm).
    cbv zeta in H20, Hm. rewrite H20, Hm. reflexivity.
Qed.

Lemma bollinger_bands_symmetric_witness :
  exists m,
    bollinger_mavg [3; 6; 9] 2 !! 1%nat = Some (Some m) /\
    (30 # 4) + (6 # 4) == 2 * m /\
    ((forall q : Q, 0 <= (fun _ : Q => 3 # 2) q) -> 0 <= 2 -> 6 # 4 <= m /\ m <= 30 # 4).
Proof.
  apply (proj1 (bollinger_bands_symmetric (fun _ => 3 # 2)) [3; 6; 9] 2%nat 2 1%nat).
  - vm_compute. reflexivity.
  - vm_compute. reflexivity.
Defined.

(** ** Averages stay within the range of the closes *)

Lemma Qnat_S n : Qnat (S n) == Qnat n + 1.
Proof.
  unfold Qnat. rewrite Nat2Z.inj_succ, <- Z.add_1_r, inject_Z_plus. reflexivity.
Qed.

Lemma Qsum_bounds lo hi xs :
  Forall (fun x => lo <= x /\ x <= hi) xs ->
  Qnat (length xs) * lo <= Qsum xs /\ Qsum xs <= Qnat (length xs) * hi.
Proof.
  induction 1 as [|x xs [Hlo Hhi] _ [IHlo IHhi]].
  - change (Qnat (length (@nil Q))) with 0. change (Qsum []) with 0. split; lra.
  - cbn [length Qsum fold_right]. fold (Qsum xs). rewrite Qnat_S. split; lra.
Qed.

Lemma mean_bounds lo hi xs :
  (0 < length xs)%nat ->
  Forall (fun x => lo <= x /\ x <= hi) xs ->
  lo <= Qsum xs / Qnat (length xs) /\ Qsum xs / Qnat (length xs) <= hi.
Proof.
  intros Hn Hxs. destruct (Qsum_bounds lo hi xs Hxs) as [Hlo Hhi].
  assert (Hpos : 0 < Qnat (length xs)).
  { pose proof (Qnat_pos (length xs) (ltac:(lia))). lra. }
  split.
  - apply Qle_shift_div_l; [exact Hpos|]. lra.
  - apply Qle_shift_div_r; [exact Hpos|]. lra.
Qed.

Lemma rolling_mean_bounds lo hi w minp xs i v :
  Forall (fun x => lo <= x /\ x <= hi) xs ->
  rolling_mean w minp xs !! i = Some (Some v) ->
  lo <= v /\ v <= hi.
Proof.
  intros Hxs. unfold rolling_mean. rewrite list_lookup_imap.
  destruct (xs !! i); [|discriminate]. simpl.
  destruct (minp <=? length (window w i xs))%nat; [|discriminate]. simpl.
  destruct (Nat.ltb_spec 0 (length (window w i xs))); [|discriminate].
  intros [= <-]. apply mean_bounds; [assumption|].
  unfold window. apply Forall_drop, Forall_take, Hxs.
Qed.

Lemma ewm_values_bounds lo hi alpha xs :
  0 <= alpha -> alpha <= 1 ->
  Forall (fun x => lo <= x /\ x <= hi) xs ->
  forall i y, ewm_values alpha xs !! i = Some y -> lo <= y /\ y <= hi.
Proof.
  intros Ha0 Ha1 Hxs. rewrite Forall_lookup in Hxs.
  induction i as [|i IH]; intros y H.
  - rewrite ewm_values_head in H. exact (Hxs _ _ H).
  - apply ewm_values_step in H as (c & yprev & Hc & Hp & ->).
    destruct (IH _ Hp) as [I1 I2]. destruct (Hxs _ _ Hc) as [C1 C2].
    split; nra.
Qed.

Lemma span_alpha w : (1 <= w)%nat -> 0 <= 2 / (Qnat w + 1) /\ 2 / (Qnat w + 1) <= 1.
Proof.
  intros H. pose proof (Qnat_pos w H) as Hq. split.
  - apply Qle_shift_div_l; lra.
  - apply Qle_shift_div_r; lra.
Qed.

(** X15.  Moving averages never leave the range of the closes: if every
    close lies between [lo] and [hi], so does every present value of the
    SMA and of the EMA, for any window [w >= 1].  Taking [lo = hi], the
    averages of a constant series are that constant. *)
Theorem averages_within_range close w lo hi :
  (1 <= w)%nat ->
  Forall (fun x => lo <= x /\ x <= hi) close ->
  (forall i v, sma_indicator close w !! i = Some (Some v) -> lo <= v /\ v <= hi) /\
  (exists col, ema_indicator close w = Ok col /\
               forall i v, col !! i = Some (Some v) -> lo <= v /\ v <= hi).
Proof.
  intros Hw Hxs. split.
  - intros i v Hv. exact (rolling_mean_bounds lo hi w w close i v Hxs Hv).
  - exists (ewm_mean (2 / (Qnat w + 1)) w close). split.
    + unfold ema_indicator. rewrite (proj2 (Nat.ltb_ge w 1)) by lia. reflexivity.
    + intros i v Hv. apply ewm_mean_lookup in Hv as (y & Hy & Hc).
      destruct (w <=? S i)%nat; [|discriminate]. injection Hc as ->.
      destruct (span_alpha w Hw) as [A0 A1].
      exact (ewm_values_bounds lo hi _ close A0 A1 Hxs i y Hy).
Qed.

Lemma averages_within_range_witness :
  (forall i v, sma_indicator [3; 6; 9] 2 !! i = Some (Some v) -> 3 <= v /\ v <= 9) /\
  (exists col, ema_indicator [3; 6; 9] 2 = Ok col /\
               forall i v, col !! i = Some (Some v) -> 3 <= v /\ v <= 9).
Proof.
  apply (averages_within_range [3; 6; 9] 2%nat 3 9).
  - lia.
  - repeat constructor; vm_compute; discriminate.
Defined.

(** ** The RSI of a one-way market *)

Lemma diff_lookup_0 xs c : diff xs !! 0%nat = Some c -> c = None.
Proof. destruct xs; simpl; congruence. Qed.

Lemma diff_lookup_S xs i c :
  diff xs !! S i = Some c ->
  exists a b, xs !! i = Some a /\ xs !! S i = Some b /\ c = Some (b - a).
Proof.
  destruct xs as [|x rest]; [discriminate|].
  unfold diff. change ((None :: ?l) !! S i) with (l !! i).
  rewrite lookup_zip_with.
  destruct ((x :: rest) !! i) as [a|] eqn:Ea; [|discriminate]. simpl.
  destruct (rest !! i) as [b|] eqn:Eb; [|discriminate]. simpl.
  intros [= <-]. exists a, b. repeat split.
Qed.

Lemma ewm_values_zero alpha xs :
  (forall i x, xs !! i = Some x -> x == 0) ->
  forall i y, ewm_values alpha xs !! i = Some y -> y == 0.
Proof.
  intros Hxs. induction i as [|i IH]; intros y H.
  - rewrite ewm_values_head in H. exact (Hxs _ _ H).
  - apply ewm_values_step in H as (c & yprev & Hc & Hp & ->).
    rewrite (IH _ Hp), (Hxs _ _ Hc). ring.
Qed.

Lemma ewm_values_pos alpha xs i c y :
  0 < alpha -> alpha <= 1 ->
  Forall (fun x => 0 <= x) xs ->
  xs !! i = Some c -> 0 < c ->
  ewm_values alpha xs !! i = Some y -> 0 < y.
Proof.
  intros Ha0 Ha1 Hxs Hc Hpos Hy. destruct i as [|i].
  - rewrite ewm_values_head, Hc in Hy. injection Hy as <-. exact Hpos.
  - apply ewm_values_step in Hy as (c' & yprev & Hc' & Hp & ->).
    rewrite Hc in Hc'. injection Hc' as <-.
    assert (A0 : 0 <= alpha) by lra.
    pose proof (ewm_values_nonneg alpha xs A0 Ha1 Hxs i yprev Hp).
    nra.
Qed.

Lemma no_loss_when_rising xs :
  non_decreasing xs ->
  forall i d, down_direction (diff xs) !! i = Some d -> d == 0.
Proof.
  intros Hmono i d. unfold down_direction. rewrite list_lookup_fmap.
  destruct (diff xs !! i) as [c|] eqn:Ec; [|discriminate]. simpl. intros [= <-].
  destruct i as [|i].
  - apply diff_lookup_0 in Ec as ->. reflexivity.
  - apply diff_lookup_S in Ec as (a & b & Ha & Hb & ->).
    rewrite Qlt_bool_false; [reflexivity|].
    pose proof (Hmono i a b Ha Hb). lra.
Qed.

Lemma no_gain_when_falling xs :
  strictly_decreasing xs ->
  forall i u, up_direction (diff xs) !! i = Some u -> u == 0.
Proof.
  intros Hmono i u. unfold up_direction. rewrite list_lookup_fmap.
  destruct (diff xs !! i) as [c|] eqn:Ec; [|discriminate]. simpl. intros [= <-].
  destruct i as [|i].
  - apply diff_lookup_0 in Ec as ->. reflexivity.
  - apply diff_lookup_S in Ec as (a & b & Ha & Hb & ->).
    rewrite Qlt_bool_false; [reflexivity|].
    pose proof (Hmono i a b Ha Hb). lra.
Qed.

Lemma loss_when_falling xs :
  strictly_decreasing xs ->
  forall i d, down_direction (diff xs) !! S i = Some d -> 0 < d.
Proof.
  intros Hmono i d. unfold down_direction. rewrite list_lookup_fmap.
  destruct (diff xs !! S i) as [c|] eqn:Ec; [|discriminate]. simpl. intros [= <-].
  apply diff_lookup_S in Ec as (a & b & Ha & Hb & ->).
  pose proof (Hmono i a b Ha Hb) as Hlt.
  assert (E : Qlt_bool (b - a) 0 = true) by (apply Qlt_bool_iff; lra).
  rewrite E. lra.
Qed.

Lemma wilder_alpha_pos w : (1 <= w)%nat -> 0 < 1 / Qnat w.
Proof.
  intros H. pose proof (Qnat_pos w H) as Hq.
  apply Qlt_shift_div_l; lra.
Qed.

Lemma rsi_rising close w i v :
  non_decreasing close ->
  zip_with rsi_cell (rsi_emaup close w) (rsi_emadn close w) !! i = Some (Some v) ->
  v = 100.
Proof.
  intros Hmono Hv. rewrite lookup_zip_with in Hv.
  destruct (rsi_emaup close w !! i) as [u|]; [|discriminate].
  destruct (rsi_emadn close w !! i) as [d|] eqn:Ed; [|discriminate].
  simpl in Hv. injection Hv as Hv.
  destruct d as [d|]; [|discriminate].
  apply ewm_mean_lookup in Ed as (y & Hy & Hc).
  destruct (w <=? S i)%nat; [|discriminate]. injection Hc as ->.
  pose proof (ewm_values_zero _ _ (no_loss_when_rising close Hmono) _ _ Hy) as H0.
  unfold rsi_cell in Hv. rewrite (Qeq_bool_true y 0 H0) in Hv. congruence.
Qed.

Lemma rsi_falling close w i v :
  (2 <= w)%nat ->
  strictly_decreasing close ->
  zip_with rsi_cell (rsi_emaup close w) (rsi_emadn close w) !! i = Some (Some v) ->
  v == 0.
Proof.
  intros Hw Hmono Hv. rewrite lookup_zip_with in Hv.
  destruct (rsi_emaup close w !! i) as [u|] eqn:Eu; [|discriminate].
  destruct (rsi_emadn close w !! i) as [d|] eqn:Ed; [|discriminate].
  simpl in Hv. injection Hv as Hv.
  destruct d as [d|]; [|discriminate].
  apply ewm_mean_lookup in Ed as (y & Hy & Hc).
  apply ewm_mean_lookup in Eu as (yu & Hyu & Hcu).
  destruct (Nat.leb_spec w (S i)); [|discriminate].
  injection Hc as ->. subst u.
  destruct i as [|i]; [lia|].
  pose proof (ewm_values_zero _ _ (no_gain_when_falling close Hmono) _ _ Hyu) as Hu0.
  assert (Hd : 0 < y).
  { destruct (lookup_lt_is_Some_2 (down_direction (diff close)) (S i)) as [c Hc].
    { apply lookup_lt_Some in Hy. rewrite ewm_values_length in Hy. exact Hy. }
    destruct (wilder_alpha w (ltac:(lia))) as [_ A1].
    apply (ewm_values_pos (1 / Qnat w) (down_direction (diff close)) (S i) c y);
      try assumption.
    - apply wilder_alpha_pos. lia.
    - apply down_direction_nonneg.
    - exact (loss_when_falling close Hmono i c Hc). }
  unfold rsi_cell in Hv. rewrite Qeq_bool_false in Hv by lra.
  injection Hv as <-.
  assert (E : yu / y == 0) by (rewrite Hu0; unfold Qdiv; ring).
  rewrite E. field.
Qed.

(** X16.  When the closes never fall there is no loss to average, and every
    present RSI value is exactly 100.  When the closes fall at every step
    and the window is at least 2, every present RSI value is 0. *)
Theorem rsi_one_way close w :
  ((1 <= w)%nat -> non_decreasing close ->
   exists col, rsi close w = Ok col /\
               forall i v, col !! i = Some (Some v) -> v = 100) /\
  ((2 <= w)%nat -> strictly_decreasing close ->
   exists col, rsi close w = Ok col /\
               forall i v, col !! i = Some (Some v) -> v == 0).
Proof.
  split; intros Hw Hmono;
    exists (zip_with rsi_cell (rsi_emaup close w) (rsi_emadn close w));
    (split; [unfold rsi; rewrite (proj2 (Nat.eqb_neq w 0)) by lia; reflexivity|]);
    intros i v Hv.
  - exact (rsi_rising close w i v Hmono Hv).
  - exact (rsi_falling close w i v Hw Hmono Hv).
Qed.

Lemma rsi_one_way_witness :
  (exists col, rsi [4; 4; 6] 2 = Ok col /\
               forall i v, col !! i = Some (Some v) -> v = 100) /\
  (exists col, rsi [9; 7; 4] 2 = Ok col /\
               forall i v, col !! i = Some (Some v) -> v == 0).
Proof.
  split.
  - apply (proj1 (rsi_one_way [4; 4; 6] 2%nat)); [lia|].
    intros [|[|[|i]]] a b Ha Hb; simpl in Ha, Hb; try discriminate;
      injection Ha as <-; injection Hb as <-; vm_compute; discriminate.
  - apply (proj2 (rsi_one_way [9; 7; 4] 2%nat)); [lia|].
    intros [|[|[|i]]] a b Ha Hb; simpl in Ha, Hb; try discriminate;
      injection Ha as <-; injection Hb as <-; vm_compute; reflexivity.
Defined.




(** ** [plot_analysis] *)

Lemma readonly_raise {A} (e : exn) : readonly (@raise A e).
Proof. intros a. reflexivity. Qed.

Lemma readonly_loc point name : readonly (loc point name).
Proof.
  unfold loc. apply readonly_bind; [apply readonly_getitem|]. intros c.
  apply readonly_bind; [apply readonly_gets|]. intros idx.
  destruct (filter _ _) as [|p [|q ps]];
    [apply readonly_raise|apply readonly_ret|apply readonly_ret].
Qed.

Lemma readonly_mark text color name point : readonly (mark text color name point).
Proof.
  unfold mark. apply readonly_bind; [apply readonly_loc|]. intros y. apply readonly_ret.
Qed.

Lemma readonly_for_each {A B} (body : A -> M B) xs :
  (forall x, readonly (body x)) -> readonly (for_each body xs).
Proof.
  intros Hb. induction xs as [|x xs IH]; simpl; [apply readonly_ret|].
  apply readonly_bind; [apply Hb|]. intros y.
  apply readonly_bind; [exact IH|]. intros ys. apply readonly_ret.
Qed.

Lemma readonly_plot_analysis : readonly plot_analysis.
Proof.
  unfold plot_analysis.
  repeat (first [ apply readonly_bind; [|intros ?]
                | apply readonly_for_each; intros ?; apply readonly_mark
                | solve [auto with readonly] ]).
Qed.

Lemma mask_index_elem df bs pts point :
  mask_index df (BoolCol bs) = Ok pts -> point ∈ pts -> point ∈ index df.
Proof.
  simpl. intros [= <-] H.
  apply list_elem_of_fmap in H as ([t b] & -> & Hp).
  apply list_elem_of_filter in Hp as [_ Hp].
  apply elem_of_zip_l in Hp. exact Hp.
Qed.

Lemma selected_count (idx : list Z) : forall bs,
  length idx = length bs ->
  length (filter (fun p : Z * bool => snd p = true) (zip idx bs)) = count_true bs.
Proof.
  unfold count_true.
  induction idx as [|t idx IH]; intros [|b bs] Hlen; try discriminate; [reflexivity|].
  simpl in Hlen. injection Hlen as Hlen. cbn [zip zip_with].
  destruct b.
  - rewrite !filter_cons_True by reflexivity. cbn [length]. f_equal. apply IH, Hlen.
  - rewrite !filter_cons_False by (simpl; discriminate). apply IH, Hlen.
Qed.

Lemma mask_index_length df bs :
  length (bars df) = length bs ->
  exists pts, mask_index df (BoolCol bs) = Ok pts /\ length pts = count_true bs.
Proof.
  intros Hlen. eexists. split; [reflexivity|].
  rewrite length_map. apply selected_count. unfold index. rewrite length_map. exact Hlen.
Qed.

Lemma price_scalars_length df (field : Bar -> Q) :
  length (scalars (FloatCol (map (fun b => Some (field b)) (bars df))))
  = length (index df).
Proof. unfold index. simpl. rewrite !length_map. reflexivity. Qed.

Lemma filter_zip_nonempty (idx : list Z) (vs : list scalar) point :
  length idx = length vs -> point ∈ idx ->
  filter (fun p : Z * scalar => fst p = point) (zip idx vs) <> [].
Proof.
  intros Hlen Hin Hnil.
  apply list_elem_of_lookup in Hin as [i Hi].
  destruct (lookup_lt_is_Some_2 vs i) as [v Hv].
  { rewrite <- Hlen. apply lookup_lt_Some in Hi. exact Hi. }
  assert (Hz : (point, v) ∈ zip idx vs).
  { apply list_elem_of_lookup. exists i. rewrite lookup_zip_with, Hi, Hv. reflexivity. }
  assert (Hf : (point, v) ∈ filter (fun p : Z * scalar => fst p = point) (zip idx vs)).
  { apply list_elem_of_filter. split; [reflexivity|exact Hz]. }
  rewrite Hnil in Hf. apply elem_of_nil in Hf. exact Hf.
Qed.

Lemma loc_price_ok a point name (field : Bar -> Q) :
  ohlc (data a) name = Some (FloatCol (map (fun b => Some (field b)) (bars (data a)))) ->
  point ∈ index (data a) ->
  exists v, loc point name a = (Ok v, a).
Proof.
  intros Hc Hin. unfold loc.
  assert (Hg : getitem name a
               = (Ok (FloatCol (map (fun b => Some (field b)) (bars (data a)))), a)).
  { unfold getitem. rewrite Hc. reflexivity. }
  rewrite (bind_ok _ _ _ _ _ Hg). unfold gets at 1. unfold bind at 1.
  pose proof (filter_zip_nonempty (index (data a))
                (scalars (FloatCol (map (fun b => Some (field b)) (bars (data a)))))
                point (eq_sym (price_scalars_length (data a) field)) Hin) as Hne.
  destruct (filter _ _) as [|p [|q ps]]; [congruence| |]; eexists; reflexivity.
Qed.

Lemma for_each_ok {A B} (body : A -> M B) a xs :
  (forall x, x ∈ xs -> exists y, body x a = (Ok y, a)) ->
  exists ys, for_each body xs a = (Ok ys, a) /\
             Forall2 (fun x y => body x a = (Ok y, a)) xs ys.
Proof.
  induction xs as [|x xs IH]; intros H.
  - exists []. split; [reflexivity|constructor].
  - destruct (H x) as [y Hy]; [left|].
    destruct IH as (ys & Hys & HF).
    { intros x' Hx'. apply H. right. exact Hx'. }
    exists (y :: ys). split; [|constructor; assumption].
    simpl. rewrite (bind_ok _ _ _ _ _ Hy), (bind_ok _ _ _ _ _ Hys). reflexivity.
Qed.

Lemma marks_ok text color name (field : Bar -> Q) a pts :
  ohlc (data a) name = Some (FloatCol (map (fun b => Some (field b)) (bars (data a)))) ->
  (forall p, p ∈ pts -> p ∈ index (data a)) ->
  exists marks,
    for_each (mark text color name) pts a = (Ok marks, a) /\
    map ann_x marks = pts /\
    map ann_text marks = replicate (length pts) text /\
    map ann_arrowcolor marks = replicate (length pts) color.
Proof.
  intros Hc Hin.
  destruct (for_each_ok (mark text color name) a pts) as (marks & Hm & HF).
  { intros p Hp. destruct (loc_price_ok a p name field Hc (Hin p Hp)) as [v Hv].
    eexists. unfold mark. rewrite (bind_ok _ _ _ _ _ Hv). reflexivity. }
  exists marks. split; [exact Hm|].
  clear Hm Hin. induction HF as [|p m pts marks Hpm _ IH].
  - repeat split.
  - destruct IH as (I1 & I2 & I3).
    unfold mark, bind in Hpm. destruct (loc p name a) as [[y|e] a']; [|discriminate].
    injection Hpm as <- _. simpl. rewrite I1, I2, I3. repeat split.
Qed.

Lemma plot_analysis_ok a sma20 sma50 upper lower g d :
  aligned (data a) ->
  columns (data a) !! "SMA20" = Some sma20 ->
  columns (data a) !! "SMA50" = Some sma50 ->
  columns (data a) !! "BB_upper" = Some upper ->
  columns (data a) !! "BB_lower" = Some lower ->
  columns (data a) !! "Golden_Cross" = Some (BoolCol g) ->
  columns (data a) !! "Death_Cross" = Some (BoolCol d) ->
  exists fig gp dp gm dm,
    plot_analysis a = (Ok fig, a) /\
    mask_index (data a) (BoolCol g) = Ok gp /\
    mask_index (data a) (BoolCol d) = Ok dp /\
    for_each (mark "Golden Cross" "green" "Low") gp a = (Ok gm, a) /\
    for_each (mark "Death Cross" "red" "High") dp a = (Ok dm, a) /\
    fig_annotations fig = (gm ++ dm)%list /\
    length gm = count_true g /\
    length dm = count_true d /\
    map trace_name (fig_traces fig) = ["Price"; "SMA20"; "SMA50"; "BB Upper"; "BB Lower"] /\
    fig_title fig = symbol a ++ " Technical Analysis" /\
    map ann_x (fig_annotations fig) = (gp ++ dp)%list /\
    map ann_text (fig_annotations fig)
    = (replicate (count_true g) "Golden Cross"
       ++ replicate (count_true d) "Death Cross")%list /\
    map ann_arrowcolor (fig_annotations fig)
    = (replicate (count_true g) "green" ++ replicate (count_true d) "red")%list.
Proof.
  intros Hal H20 H50 Hu Hl Hg Hd.
  destruct (mask_index_length (data a) g) as (gp & Hgp & Lg).
  { symmetry. exact (Hal _ _ Hg). }
  destruct (mask_index_length (data a) d) as (dp & Hdp & Ld).
  { symmetry. exact (Hal _ _ Hd). }
  destruct (marks_ok "Golden Cross" "green" "Low" bar_low a gp eq_refl)
    as (gm & Hgm & Gx & Gt & Gc).
  { intros p Hp. exact (mask_index_elem _ _ _ _ Hgp Hp). }
  destruct (marks_ok "Death Cross" "red" "High" bar_high a dp eq_refl)
    as (dm & Hdm & Dx & Dt & Dc).
  { intros p Hp. exact (mask_index_elem _ _ _ _ Hdp Hp). }
  assert (Lgm : length gm = count_true g).
  { rewrite <- Lg, <- Gx. symmetry. apply length_map. }
  assert (Ldm : length dm = count_true d).
  { rewrite <- Ld, <- Dx. symmetry. apply length_map. }
  eexists. exists gp, dp, gm, dm. split.
  - unfold plot_analysis.
    unfold gets at 1. unfold bind at 1.
    rewrite (bind_ok _ _ a _ a (eq_refl : getitem "Open" a = (Ok _, a))).
    rewrite (bind_ok _ _ a _ a (eq_refl : getitem "High" a = (Ok _, a))).
    rewrite (bind_ok _ _ a _ a (eq_refl : getitem "Low" a = (Ok _, a))).
    rewrite (bind_ok _ _ a _ a (eq_refl : getitem "Close" a = (Ok _, a))).
    unfold gets at 1. unfold bind at 1.
    rewrite (bind_ok _ _ _ _ _ (getitem_derived "SMA20" _ _ eq_refl H20)).
    unfold gets at 1. unfold bind at 1.
    rewrite (bind_ok _ _ _ _ _ (getitem_derived "SMA50" _ _ eq_refl H50)).
    unfold gets at 1. unfold bind at 1.
    rewrite (bind_ok _ _ _ _ _ (getitem_derived "BB_upper" _ _ eq_refl Hu)).
    unfold gets at 1. unfold bind at 1.
    rewrite (bind_ok _ _ _ _ _ (getitem_derived "BB_lower" _ _ eq_refl Hl)).
    rewrite (bind_ok _ _ _ _ _ (getitem_derived "Golden_Cross" _ _ eq_refl Hg)).
    unfold gets at 1. unfold bind at 1. rewrite Hgp. unfold lift at 1. unfold bind at 1.
    rewrite (bind_ok _ _ _ _ _ (getitem_derived "Death_Cross" _ _ eq_refl Hd)).
    unfold gets at 1. unfold bind at 1. rewrite Hdp. unfold lift at 1. unfold bind at 1.
    rewrite (bind_ok _ _ _ _ _ Hgm), (bind_ok _ _ _ _ _ Hdm). reflexivity.
  - cbn [fig_traces fig_annotations fig_title trace_name map].
    rewrite !map_app, Gx, Dx, Gt, Dt, Gc, Dc, Lg, Ld.
    repeat split; assumption.
Qed.

(** X18.  [plot_analysis] never changes the analyzer.  On an aligned table
    that has the two averages, the two bands and the two crossover columns
    it shows a figure with the five traces Price, SMA20, SMA50, BB Upper and
    BB Lower, titled with the symbol, and one annotation per true cell:
    first a green "Golden Cross" for every true cell of Golden_Cross, then a
    red "Death Cross" for every true cell of Death_Cross. *)
Theorem plot_analysis_figure a :
  snd (plot_analysis a) = a /\
  (forall sma20 sma50 upper lower g d,
      aligned (data a) ->
      columns (data a) !! "SMA20" = Some sma20 ->
      columns (data a) !! "SMA50" = Some sma50 ->
      columns (data a) !! "BB_upper" = Some upper ->
      columns (data a) !! "BB_lower" = Some lower ->
      columns (data a) !! "Golden_Cross" = Some (BoolCol g) ->
      columns (data a) !! "Death_Cross" = Some (BoolCol d) ->
      exists fig,
        fst (plot_analysis a) = Ok fig /\
        map trace_name (fig_traces fig)
        = ["Price"; "SMA20"; "SMA50"; "BB Upper"; "BB Lower"] /\
        fig_title fig = symbol a ++ " Technical Analysis" /\
        length (fig_annotations fig) = (count_true g + count_true d)%nat /\
        map ann_text (fig_annotations fig)
        = (replicate (count_true g) "Golden Cross"
           ++ replicate (count_true d) "Death Cross")%list /\
        map ann_arrowcolor (fig_annotations fig)
        = (replicate (count_true g) "green" ++ replicate (count_true d) "red")%list).
Proof.
  split; [apply readonly_plot_analysis|].
  intros sma20 sma50 upper lower g d Hal H20 H50 Hu Hl Hg Hd.
  destruct (plot_analysis_ok a _ _ _ _ _ _ Hal H20 H50 Hu Hl Hg Hd)
    as (fig & gp & dp & gm & dm & Hp & _ & _ & _ & _ & Ha & Lg & Ld & Ht & Hti & _ & Htx & Hc).
  exists fig. rewrite Hp. split; [reflexivity|].
  split; [exact Ht|]. split; [exact Hti|].
  split; [rewrite Ha, length_app, Lg, Ld; reflexivity|].
  split; assumption.
Qed.

Lemma sample_chart_aligned : aligned (data sample_chart).
Proof. unfold aligned. refine (bool_decide_unpack _ _). vm_compute. exact I. Defined.

Lemma plot_analysis_figure_witness :
  snd (plot_analysis sample_chart) = sample_chart /\
  exists fig,
    fst (plot_analysis sample_chart) = Ok fig /\
    map trace_name (fig_traces fig)
    = ["Price"; "SMA20"; "SMA50"; "BB Upper"; "BB Lower"] /\
    fig_title fig = "BTC Technical Analysis" /\
    length (fig_annotations fig) = 2%nat /\
    map ann_text (fig_annotations fig) = ["Golden Cross"; "Death Cross"] /\
    map ann_arrowcolor (fig_annotations fig) = ["green"; "red"].
Proof.
  split; [apply (proj1 (plot_analysis_figure sample_chart))|].
  apply (proj2 (plot_analysis_figure sample_chart)
           (FloatCol [None; Some 5; Some 7; Some 5])
           (FloatCol [None; Some 5; Some 6; Some 6])
           (FloatCol [None; Some 6; Some 8; Some 8])
           (FloatCol [None; Some 4; Some 4; Some 4])
           [false; false; true; false] [false; false; false; true]).
  - exact sample_chart_aligned.
  - vm_compute. reflexivity.
  - vm_compute. reflexivity.
  - vm_compute. reflexivity.
  - vm_compute. reflexivity.
  - vm_compute. reflexivity.
  - vm_compute. reflexivity.
Defined.

Lemma plot_analysis_no_sma20 a :
  columns (data a) !! "SMA20" = None ->
  plot_analysis a = (Err (KeyError "SMA20"), a).
Proof.
  intros H. unfold plot_analysis.
  unfold gets at 1. unfold bind at 1.
  rewrite (bind_ok _ _ a _ a (eq_refl : getitem "Open" a = (Ok _, a))).
  rewrite (bind_ok _ _ a _ a (eq_refl : getitem "High" a = (Ok _, a))).
  rewrite (bind_ok _ _ a _ a (eq_refl : getitem "Low" a = (Ok _, a))).
  rewrite (bind_ok _ _ a _ a (eq_refl : getitem "Close" a = (Ok _, a))).
  unfold gets at 1. unfold bind at 1.
  apply bind_err. apply getitem_missing; [reflexivity|exact H].
Qed.

Lemma plot_analysis_no_golden a sma20 sma50 upper lower :
  columns (data a) !! "SMA20" = Some sma20 ->
  columns (data a) !! "SMA50" = Some sma50 ->
  columns (data a) !! "BB_upper" = Some upper ->
  columns (data a) !! "BB_lower" = Some lower ->
  columns (data a) !! "Golden_Cross" = None ->
  plot_analysis a = (Err (KeyError "Golden_Cross"), a).
Proof.
  intros H20 H50 Hu Hl Hg. unfold plot_analysis.
  unfold gets at 1. unfold bind at 1.
  rewrite (bind_ok _ _ a _ a (eq_refl : getitem "Open" a = (Ok _, a))).
  rewrite (bind_ok _ _ a _ a (eq_refl : getitem "High" a = (Ok _, a))).
  rewrite (bind_ok _ _ a _ a (eq_refl : getitem "Low" a = (Ok _, a))).
  rewrite (bind_ok _ _ a _ a (eq_refl : getitem "Close" a = (Ok _, a))).
  unfold gets at 1. unfold bind at 1.
  rewrite (bind_ok _ _ _ _ _ (getitem_derived "SMA20" _ _ eq_refl H20)).
  unfold gets at 1. unfold bind at 1.
  rewrite (bind_ok _ _ _ _ _ (getitem_derived "SMA50" _ _ eq_refl H50)).
  unfold gets at 1. unfold bind at 1.
  rewrite (bind_ok _ _ _ _ _ (getitem_derived "BB_upper" _ _ eq_refl Hu)).
  unfold gets at 1. unfold bind at 1.
  rewrite (bind_ok _ _ _ _ _ (getitem_derived "BB_lower" _ _ eq_refl Hl)).
  apply bind_err. apply getitem_missing; [reflexivity|exact Hg].
Qed.

(** X19.  Drawing the chart too early.  On a freshly constructed analyzer
    [plot_analysis] raises [KeyError] for ['SMA20']; after [add_indicators]
    alone it raises [KeyError] for ['Golden_Cross'].  The object is left as
    it was. *)
Theorem plot_analysis_too_early sqrt_q env sym sd ed a :
  CryptoAnalyzer_init env sym sd ed = Ok a ->
  plot_analysis a = (Err (KeyError "SMA20"), a) /\
  plot_analysis (snd (add_indicators sqrt_q a))
  = (Err (KeyError "Golden_Cross"), snd (add_indicators sqrt_q a)).
Proof.
  intros H. apply init_ok in H as (_ & _ & _ & Hcols). split.
  - apply plot_analysis_no_sma20. rewrite Hcols. apply lookup_empty.
  - destruct (add_indicators_columns sqrt_q a)
      as (_ & _ & H20 & H50 & _ & _ & Hu & Hl & _).
    cbv zeta in H20, H50, Hu, Hl.
    apply (plot_analysis_no_golden _ _ _ _ _ H20 H50 Hu Hl).
    rewrite add_indicators_run. simpl.
    do 7 (rewrite lookup_insert_ne by discriminate).
    rewrite Hcols. apply lookup_empty.
Qed.

Lemma plot_analysis_too_early_witness :
  plot_analysis (analyzer_of [4; 5; 6] ∅)
  = (Err (KeyError "SMA20"), analyzer_of [4; 5; 6] ∅) /\
  plot_analysis (snd (add_indicators (fun q => q) (analyzer_of [4; 5; 6] ∅)))
  = (Err (KeyError "Golden_Cross"),
     snd (add_indicators (fun q => q) (analyzer_of [4; 5; 6] ∅))).
Proof.
  apply (plot_analysis_too_early (fun q => q) (env_of [4; 5; 6]) "BTC" None None).
  reflexivity.
Defined.

(** X20.  The chart agrees with the report.  After the two stages on a
    non-empty, aligned table, [generate_report] and [plot_analysis] both
    succeed, and the chart carries as many annotations as the report counts
    golden and death crosses together. *)
Theorem chart_matches_report sqrt_q a :
  bars (data a) <> [] ->
  aligned (data a) ->
  let a2 := snd (identify_patterns (snd (add_indicators sqrt_q a))) in
  exists r fig,
    generate_report a2 = (Ok r, a2) /\
    plot_analysis a2 = (Ok fig, a2) /\
    length (fig_annotations fig) = (r_golden_crosses r + r_death_crosses r)%nat /\
    length (filter (fun m => ann_text m = "Golden Cross") (fig_annotations fig))
    = r_golden_crosses r /\
    length (filter (fun m => ann_text m = "Death Cross") (fig_annotations fig))
    = r_death_crosses r.
Proof.
  intros Hne Hal a2.
  destruct (pipeline_report sqrt_q a Hne Hal)
    as (r & f & l & x & Hrep & _ & _ & _ & _ & _ & _ & _ & _ & Fg & Fd & _).
  fold a2 in Hrep.
  destruct (pipeline_run sqrt_q a) as (_ & Hrun).
  assert (Hal2 : aligned (data a2)).
  { apply identify_patterns_aligned_state, add_indicators_aligned_state, Hal. }
  destruct (add_indicators_columns sqrt_q a)
    as (_ & _ & H20 & H50 & _ & _ & Hu & Hl & _).
  cbv zeta in H20, H50, Hu, Hl.
  set (fast := FloatCol (sma_indicator (closes (data a)) 20)) in *.
  set (slow := FloatCol (sma_indicator (closes (data a)) 50)) in *.
  assert (Hcols : forall k,
             columns (data a2) !! k =
             (<["Overbought" := BoolCol (map (fun x => cell_lt (Some 70) x)
                                             (pipeline_rsi (closes (data a))))]>
                (<["Oversold" := BoolCol (map (fun x => cell_lt x (Some 30))
                                              (pipeline_rsi (closes (data a))))]>
                   (<["Death_Cross" := BoolCol (death_cells fast slow)]>
                      (<["Golden_Cross" := BoolCol (golden_cells fast slow)]>
                         (columns (data (snd (add_indicators sqrt_q a)))))))) !! k).
  { intros k. subst a2. rewrite Hrun. reflexivity. }
  clearbody a2.
  destruct (plot_analysis_ok a2 fast slow
              (FloatCol (bollinger_hband sqrt_q (closes (data a)) 20 2))
              (FloatCol (bollinger_lband sqrt_q (closes (data a)) 20 2))
              (golden_cells fast slow) (death_cells fast slow))
    as (fig & gp & dp & gm & dm & Hp & _ & _ & _ & _ & Ha & Lg & Ld & _ & _ & _ & Htx & _);
    try (rewrite Hcols; lookup_inserts); try assumption.
  - rewrite Hcols. do 4 (rewrite lookup_insert_ne by discriminate). exact H20.
  - rewrite Hcols. do 4 (rewrite lookup_insert_ne by discriminate). exact H50.
  - rewrite Hcols. do 4 (rewrite lookup_insert_ne by discriminate). exact Hu.
  - rewrite Hcols. do 4 (rewrite lookup_insert_ne by discriminate). exact Hl.
  - exists r, fig. split; [exact Hrep|]. split; [exact Hp|].
    rewrite Fg, Fd. split; [rewrite Ha, length_app, Lg, Ld; reflexivity|].
    assert (Hcount : forall (t : string) n k u,
               t <> u ->
               length (filter (fun s => s = t) (replicate n t ++ replicate k u)%list) = n /\
               length (filter (fun s => s = u) (replicate n t ++ replicate k u)%list) = k).
    { intros t n k u Htu. rewrite !filter_app, !length_app.
      assert (F1 : forall m, filter (fun s => s = t) (replicate m t) = replicate m t).
      { induction m; simpl; [reflexivity|].
        rewrite filter_cons_True by reflexivity. f_equal. assumption. }
      assert (F2 : forall m, filter (fun s => s = t) (replicate m u) = []).
      { induction m; simpl; [reflexivity|].
        rewrite filter_cons_False by congruence. assumption. }
      assert (F3 : forall m, filter (fun s => s = u) (replicate m u) = replicate m u).
      { induction m; simpl; [reflexivity|].
        rewrite filter_cons_True by reflexivity. f_equal. assumption. }
      assert (F4 : forall m, filter (fun s => s = u) (replicate m t) = []).
      { induction m; simpl; [reflexivity|].
        rewrite filter_cons_False by congruence. assumption. }
      rewrite F1, F2, F3, F4, !length_replicate. simpl. split; lia. }
    destruct (Hcount "Golden Cross" (count_true (golden_cells fast slow))
                     (count_true (death_cells fast slow)) "Death Cross")
      as [C1 C2]; [discriminate|].
    rewrite <- Htx in C1, C2.
    assert (Hf : forall t (ms : list annotation),
               length (filter (fun m => ann_text m = t) ms)
               = length (filter (fun s => s = t) (map ann_text ms))).
    { intros t ms. induction ms as [|m ms IH]; [reflexivity|].
      cbn [map]. destruct (decide (ann_text m = t)) as [E|E].
      - rewrite !filter_cons_True by exact E. cbn [length]. f_equal. exact IH.
      - rewrite !filter_cons_False by exact E. exact IH. }
    rewrite !Hf. split; assumption.
Qed.

Lemma chart_matches_report_witness :
  let a2 := snd (identify_patterns
                   (snd (add_indicators (fun q => q) (analyzer_of [4; 5; 6] ∅)))) in
  bars (data (analyzer_of [4; 5; 6] ∅)) <> [] /\
  exists r fig,
    generate_report a2 = (Ok r, a2) /\
    plot_analysis a2 = (Ok fig, a2) /\
    length (fig_annotations fig) = (r_golden_crosses r + r_death_crosses r)%nat /\
    length (filter (fun m => ann_text m = "Golden Cross") (fig_annotations fig))
    = r_golden_crosses r /\
    length (filter (fun m => ann_text m = "Death Cross") (fig_annotations fig))
    = r_death_crosses r.
Proof.
  cbv zeta. split; [discriminate|].
  apply (chart_matches_report (fun q => q) (analyzer_of [4; 5; 6] ∅)).
  - discriminate.
  - apply aligned_fresh. reflexivity.
Defined.

Lemma filter_zip_absent (idx : list Z) point : forall vs : list scalar,
  point ∉ idx ->
  filter (fun p : Z * scalar => fst p = point) (zip idx vs) = [].
Proof.
  induction idx as [|t idx IH]; intros [|v vs] Hn; try reflexivity.
  cbn [zip zip_with]. rewrite filter_cons_False.
  - apply IH. intros H. apply Hn. right. exact H.
  - simpl. intros ->. apply Hn. left.
Qed.

Lemma filter_zip_unique (idx : list Z) : forall (vs : list scalar) i point v,
  NoDup idx ->
  idx !! i = Some point ->
  vs !! i = Some v ->
  filter (fun p : Z * scalar => fst p = point) (zip idx vs) = [(point, v)].
Proof.
  induction idx as [|t idx IH]; intros [|v0 vs] [|i] point v Hnd Hi Hv;
    try discriminate; apply NoDup_cons in Hnd as [Hnt Hnd].
  - injection Hi as <-. injection Hv as <-.
    cbn [zip zip_with]. rewrite filter_cons_True by reflexivity.
    f_equal. apply filter_zip_absent, Hnt.
  - cbn [zip zip_with]. rewrite filter_cons_False.
    + exact (IH vs i point v Hnd Hi Hv).
    + simpl. intros ->. apply Hnt. apply list_elem_of_lookup. eauto.
Qed.

Lemma loc_price_unique a i b name (field : Bar -> Q) :
  ohlc (data a) name = Some (FloatCol (map (fun b => Some (field b)) (bars (data a)))) ->
  NoDup (index (data a)) ->
  bars (data a) !! i = Some b ->
  loc (timestamp b) name a = (Ok (LocScalar (SFloat (Finite (field b)))), a).
Proof.
  intros Hc Hnd Hb. unfold loc.
  assert (Hg : getitem name a
               = (Ok (FloatCol (map (fun b => Some (field b)) (bars (data a)))), a)).
  { unfold getitem. rewrite Hc. reflexivity. }
  rewrite (bind_ok _ _ _ _ _ Hg). unfold gets at 1. unfold bind at 1.
  rewrite (filter_zip_unique (index (data a)) _ i (timestamp b)
             (SFloat (Finite (field b))) Hnd).
  - reflexivity.
  - unfold index. rewrite list_lookup_fmap, Hb. reflexivity.
  - simpl. rewrite !list_lookup_fmap, Hb. reflexivity.
Qed.

Lemma mask_index_source df bs pts p :
  mask_index df (BoolCol bs) = Ok pts ->
  p ∈ pts ->
  exists i b, bars df !! i = Some b /\ timestamp b = p /\ bs !! i = Some true.
Proof.
  simpl. intros [= <-] H.
  apply list_elem_of_fmap in H as ([t v] & -> & Hp).
  apply list_elem_of_filter in Hp as [Hv Hp]. simpl in Hv. subst v.
  apply list_elem_of_lookup in Hp as [i Hi].
  rewrite lookup_zip_with in Hi.
  destruct (index df !! i) as [t'|] eqn:Et; [|discriminate]. simpl in Hi.
  destruct (bs !! i) as [v|] eqn:Ev; [|discriminate]. simpl in Hi.
  injection Hi as -> ->.
  unfold index in Et. rewrite list_lookup_fmap in Et.
  destruct (bars df !! i) as [b|] eqn:Eb; [|discriminate].
  injection Et as <-. exists i, b. split; [exact Eb|]. split; [reflexivity|exact Ev].
Qed.

Lemma for_each_inv {A B} (body : A -> M B) a :
  (forall x, readonly (body x)) ->
  forall xs ys a',
    for_each body xs a = (Ok ys, a') ->
    Forall2 (fun x y => body x a = (Ok y, a)) xs ys.
Proof.
  intros Hro. induction xs as [|x xs IH]; intros ys a' H.
  - injection H as <- _. constructor.
  - simpl in H. unfold bind at 1 in H.
    pose proof (Hro x a) as Hx.
    destruct (body x a) as [[y|e] a1] eqn:Ex; [|discriminate].
    simpl in Hx. subst a1.
    unfold bind at 1 in H.
    destruct (for_each body xs a) as [[ys'|e] a2] eqn:Exs; [|discriminate].
    injection H as <- _. constructor; [exact Ex|].
    exact (IH ys' a2 eq_refl).
Qed.

Lemma marks_at_bars text color name (field : Bar -> Q) a bs pts marks m :
  ohlc (data a) name = Some (FloatCol (map (fun b => Some (field b)) (bars (data a)))) ->
  NoDup (index (data a)) ->
  mask_index (data a) (BoolCol bs) = Ok pts ->
  for_each (mark text color name) pts a = (Ok marks, a) ->
  m ∈ marks ->
  exists i b,
    bars (data a) !! i = Some b /\
    bs !! i = Some true /\
    ann_x m = timestamp b /\
    ann_text m = text /\
    ann_y m = LocScalar (SFloat (Finite (field b))).
Proof.
  intros Hc Hnd Hpts Hfor Hm.
  apply (for_each_inv _ a (readonly_mark text color name)) in Hfor.
  apply list_elem_of_lookup in Hm as [k Hk].
  destruct (Forall2_lookup_r _ _ _ _ _ Hfor Hk) as (p & Hp & Hmark).
  destruct (mask_index_source _ _ _ p Hpts) as (i & b & Hb & Ht & Hi).
  { apply list_elem_of_lookup. eauto. }
  subst p. unfold mark in Hmark.
  rewrite (bind_ok _ _ _ _ _ (loc_price_unique a i b name field Hc Hnd Hb)) in Hmark.
  injection Hmark as <-. exists i, b. repeat split; assumption.
Qed.

(** X21.  Where the annotations sit.  When the bars carry pairwise distinct
    timestamps, every annotation of the chart belongs to a bar at which its
    signal is true: a "Golden Cross" annotation is placed at the timestamp
    and at the Low of a bar whose Golden_Cross cell is true, a
    "Death Cross" annotation at the timestamp and at the High of a bar whose
    Death_Cross cell is true. *)
Theorem annotations_at_crossovers a sma20 sma50 upper lower g d :
  aligned (data a) ->
  NoDup (index (data a)) ->
  columns (data a) !! "SMA20" = Some sma20 ->
  columns (data a) !! "SMA50" = Some sma50 ->
  columns (data a) !! "BB_upper" = Some upper ->
  columns (data a) !! "BB_lower" = Some lower ->
  columns (data a) !! "Golden_Cross" = Some (BoolCol g) ->
  columns (data a) !! "Death_Cross" = Some (BoolCol d) ->
  exists fig,
    fst (plot_analysis a) = Ok fig /\
    forall m, m ∈ fig_annotations fig ->
      exists i b,
        bars (data a) !! i = Some b /\
        ann_x m = timestamp b /\
        ((g !! i = Some true /\ ann_text m = "Golden Cross" /\
          ann_y m = LocScalar (SFloat (Finite (bar_low b)))) \/
         (d !! i = Some true /\ ann_text m = "Death Cross" /\
          ann_y m = LocScalar (SFloat (Finite (bar_high b))))).
Proof.
  intros Hal Hnd H20 H50 Hu Hl Hg Hd.
  destruct (plot_analysis_ok a _ _ _ _ _ _ Hal H20 H50 Hu Hl Hg Hd)
    as (fig & gp & dp & gm & dm & Hp & Hgp & Hdp & Hgm & Hdm & Ha & _).
  exists fig. rewrite Hp. split; [reflexivity|].
  intros m Hm. rewrite Ha in Hm. apply elem_of_app in Hm as [Hm|Hm].
  - destruct (marks_at_bars "Golden Cross" "green" "Low" bar_low a g gp gm m
                eq_refl Hnd Hgp Hgm Hm)
      as (i & b & Hb & Hi & Hx & Ht & Hy).
    exists i, b. split; [exact Hb|]. split; [exact Hx|]. left. repeat split; assumption.
  - destruct (marks_at_bars "Death Cross" "red" "High" bar_high a d dp dm m
                eq_refl Hnd Hdp Hdm Hm)
      as (i & b & Hb & Hi & Hx & Ht & Hy).
    exists i, b. split; [exact Hb|]. split; [exact Hx|]. right. repeat split; assumption.
Qed.

Lemma annotations_at_crossovers_witness :
  exists fig,
    fst (plot_analysis sample_chart) = Ok fig /\
    forall m, m ∈ fig_annotations fig ->
      exists i b,
        bars (data sample_chart) !! i = Some b /\
        ann_x m = timestamp b /\
        (([false; false; true; false] !! i = Some true /\ ann_text m = "Golden Cross" /\
          ann_y m = LocScalar (SFloat (Finite (bar_low b)))) \/
         ([false; false; false; true] !! i = Some true /\ ann_text m = "Death Cross" /\
          ann_y m = LocScalar (SFloat (Finite (bar_high b))))).
Proof.
  apply (annotations_at_crossovers sample_chart
           (FloatCol [None; Some 5; Some 7; Some 5])
           (FloatCol [None; Some 5; Some 6; Some 6])
           (FloatCol [None; Some 6; Some 8; Some 8])
           (FloatCol [None; Some 4; Some 4; Some 4])).
  - exact sample_chart_aligned.
  - refine (bool_decide_unpack _ _). vm_compute. exact I.
  - vm_compute. reflexivity.
  - vm_compute. reflexivity.
  - vm_compute. reflexivity.
  - vm_compute. reflexivity.
  - vm_compute. reflexivity.
  - vm_compute. reflexivity.
Defined.

(** ** [load_data] *)

(** X22.  [load_data] assigns the fetched table before it checks it.  It
    requests the ticker [symbol-USD] over the stored dates and replaces the
    table by the answer, dropping every derived column; when the answer is
    empty it raises [ValueError] with the table already replaced, otherwise
    it returns normally.  The symbol and the dates are never changed. *)
Theorem load_data_replaces_table env a :
  let fetched := history env (symbol a ++ "-USD") (start_date a) (end_date a) in
  let a' := snd (load_data env a) in
  symbol a' = symbol a /\
  start_date a' = start_date a /\
  end_date a' = end_date a /\
  data a' = {| bars := fetched; columns := ∅ |} /\
  (fetched = [] ->
   fst (load_data env a) = Err (ValueError ("No data found for " ++ symbol a))) /\
  (fetched <> [] -> fst (load_data env a) = Ok tt).
Proof.
  cbv zeta. unfold load_data, bind, gets, put_data, raise, ret. simpl.
  destruct (history env (symbol a ++ "-USD") (start_date a) (end_date a)) as [|b bs];
    simpl; repeat split; congruence.
Qed.

Lemma load_data_replaces_table_witness :
  data (snd (load_data (env_of []) sample_annotated)) = {| bars := []; columns := ∅ |} /\
  fst (load_data (env_of []) sample_annotated)
  = Err (ValueError "No data found for BTC") /\
  fst (load_data (env_of [4; 5]) sample_annotated) = Ok tt.
Proof.
  split; [|split].
  - apply (load_data_replaces_table (env_of []) sample_annotated).
  - apply (load_data_replaces_table (env_of []) sample_annotated). reflexivity.
  - apply (load_data_replaces_table (env_of [4; 5]) sample_annotated). discriminate.
Defined.
